(** * strichliste-django: the views of the tally service

    A shallow embedding of [strichliste/views.py].  The database is an
    explicit [Store] (the two tables and their primary-key sequences),
    Python exceptions are the [Raise] outcome of a small state-and-exception
    monad, [transaction.atomic()] is the [atomic] combinator, and every
    Django model instance held in a local variable is a value of its own:
    two [User.objects.get] calls for one primary key give two independent
    copies of the row, as in Django. *)

From Stdlib Require Import ZArith List Bool Lia String.
Import ListNotations.
Open Scope Z_scope.

(** ** models.py *)

(** Modelled from the spec: models.py is not part of the sources. Section 3
    gives a User an id, a unique name, an optional mail address, a signed
    balance and an active flag. *)
Module User.
Record t := mk {
  id : Z;
  name : string;
  mail_address : option string;
  balance : Z;
  active : bool
}.

Definition set_balance (u : t) (b : Z) : t :=
  mk (id u) (name u) (mail_address u) b (active u).
End User.

(** Modelled from the spec: models.py is not part of the sources. Section 3
    gives a Transaction an id, the owning user, a signed value and the
    optional [double_entry_id] back-reference. The timestamp is left out:
    views.py never reads or writes it. *)
Module Transaction.
Record t := mk {
  id : Z;
  user : Z;
  value : Z;
  double_entry_id : option Z
}.

Definition set_double_entry_id (x : t) (d : option Z) : t :=
  mk (id x) (user x) (value x) d.
End Transaction.

(** The database: both tables in row order, and the next primary key each
    table hands out. *)
Record Store := mkStore {
  users : list User.t;
  transactions : list Transaction.t;
  next_user_id : Z;
  next_transaction_id : Z
}.

(** ** Exceptions and the monad of a view *)

Inductive Exception :=
| User_DoesNotExist
| UserNotFound
| TransactionValueZero
| TransactionValueError
| IntegrityError
| AssertionError.

Inductive Result (A : Type) :=
| Return (a : A)
| Raise (e : Exception).
Arguments Return {A} a.
Arguments Raise {A} e.

Definition M (A : Type) : Type := Store -> Store * Result A.

Definition ret {A} (a : A) : M A := fun s => (s, Return a).

Definition raise {A} (e : Exception) : M A := fun s => (s, Raise e).

Definition bind {A B} (m : M A) (k : A -> M B) : M B :=
  fun s =>
    match m s with
    | (s', Return a) => k a s'
    | (s', Raise e) => (s', Raise e)
    end.

Notation "x <- m ;; k" := (bind m (fun x => k))
  (at level 61, m at next level, right associativity).
Notation "m ;;; k" := (bind m (fun _ => k))
  (at level 61, right associativity).

(** [with transaction.atomic(): body]: an exception leaving the block rolls
    every write of the block back and is raised again. *)
Definition atomic {A} (body : M A) : M A :=
  fun s =>
    match body s with
    | (s', Return a) => (s', Return a)
    | (_, Raise e) => (s, Raise e)
    end.

(** [try: body except ...: handler]: [handler e] is [Some h] when a clause
    matches [e]; an exception no clause matches keeps propagating. The view
    has no atomic block of its own, so writes made before the exception
    stay. *)
Definition try_except {A} (body : M A) (handler : Exception -> option (M A)) : M A :=
  fun s =>
    match body s with
    | (s', Return a) => (s', Return a)
    | (s', Raise e) =>
        match handler e with
        | Some h => h s'
        | None => (s', Raise e)
        end
    end.

(** ** The ORM calls the views make *)

(** [User.objects.get(pk=...)]. *)
Definition User_objects_get (pk : Z) : M User.t :=
  fun s =>
    match find (fun u => User.id u =? pk) (users s) with
    | Some u => (s, Return u)
    | None => (s, Raise User_DoesNotExist)
    end.

Definition update_user_rows (u : User.t) (rows : list User.t) : list User.t :=
  map (fun r => if User.id r =? User.id u then u else r) rows.

(** [user.save()] on an instance that has a primary key: UPDATE of the row
    with every field of the instance, INSERT when no row has that key. *)
Definition User_save (u : User.t) : M unit :=
  fun s =>
    let rows :=
      if existsb (fun r => User.id r =? User.id u) (users s)
      then update_user_rows u (users s)
      else users s ++ [u] in
    (mkStore rows (transactions s) (next_user_id s) (next_transaction_id s),
     Return tt).

(** [User(name=..., mail_address=...).save()]: INSERT with a fresh key; the
    unique constraint on the name raises IntegrityError.
    Modelled from the spec: the field defaults of models.py (balance 0,
    active) are those of the scenario of section 8 and of section 3. *)
Definition User_create (name : string) (mail_address : option string) : M User.t :=
  fun s =>
    if existsb (fun r => String.eqb (User.name r) name) (users s)
    then (s, Raise IntegrityError)
    else
      let u := User.mk (next_user_id s) name mail_address 0 true in
      (mkStore (users s ++ [u]) (transactions s)
               (next_user_id s + 1) (next_transaction_id s),
       Return u).

(** [Transaction.objects.filter(...)], the filters the views use. *)
Definition Transaction_objects_all : M (list Transaction.t) :=
  fun s => (s, Return (transactions s)).

Definition Transaction_objects_filter_user (u : User.t) : M (list Transaction.t) :=
  fun s =>
    (s, Return (filter (fun x => Transaction.user x =? User.id u) (transactions s))).

Definition Transaction_objects_filter_id (pk : Z) : M (list Transaction.t) :=
  fun s =>
    (s, Return (filter (fun x => Transaction.id x =? pk) (transactions s))).

Definition Transaction_objects_filter_user_id (u : User.t) (pk : Z)
  : M (list Transaction.t) :=
  fun s =>
    (s, Return (filter (fun x => (Transaction.user x =? User.id u)
                                 && (Transaction.id x =? pk))
                       (transactions s))).

Definition User_objects_filter_active : M (list User.t) :=
  fun s => (s, Return (filter (fun u => User.active u) (users s))).

Definition update_transaction_rows (x : Transaction.t) (rows : list Transaction.t)
  : list Transaction.t :=
  map (fun r => if Transaction.id r =? Transaction.id x then x else r) rows.

(** [instance.save()] on a transaction that has a primary key. *)
Definition Transaction_save (x : Transaction.t) : M unit :=
  fun s =>
    let rows :=
      if existsb (fun r => Transaction.id r =? Transaction.id x) (transactions s)
      then update_transaction_rows x (transactions s)
      else transactions s ++ [x] in
    (mkStore (users s) rows (next_user_id s) (next_transaction_id s), Return tt).

(** ** What the views send back *)

(** Modelled from the spec: [User.to_dict] and [User.to_full_dict] are in
    models.py; section 6 lists id, name and balance, the full form adding
    the mail address. *)
Record UserDict := mkUserDict {
  dict_id : Z;
  dict_name : string;
  dict_balance : Z
}.

Record UserFullDict := mkUserFullDict {
  full_id : Z;
  full_name : string;
  full_balance : Z;
  full_mail_address : option string
}.

Definition to_dict (u : User.t) : UserDict :=
  mkUserDict (User.id u) (User.name u) (User.balance u).

Definition to_full_dict (u : User.t) : UserFullDict :=
  mkUserFullDict (User.id u) (User.name u) (User.balance u) (User.mail_address u).

(** Modelled from the spec: [Transaction.to_dict] (models.py) and the
    serializer's [data] (serializers.py) both give the transaction record. *)
Definition transaction_to_dict (x : Transaction.t) : Transaction.t := x.

Inductive Message :=
| No_name_provided
| user_already_exists (name : string)
| user_not_found (pk : Z)
| transaction_not_found
| Value_missing
| exception_text (e : Exception).

Record Page (A : Type) := mkPage {
  entries : list A;
  limit : Z;
  offset : Z;
  overall_count : Z
}.
Arguments mkPage {A}.
Arguments entries {A}.
Arguments limit {A}.
Arguments offset {A}.
Arguments overall_count {A}.

Inductive Data :=
| msg (m : Message)
| user_data (d : UserFullDict)
| transaction_data (d : Transaction.t)
| user_page (p : Page UserDict)
| transaction_page (p : Page Transaction.t).

Record Response := mkResponse {
  data : Data;
  status : Z
}.

Definition HTTP_200_OK : Z := 200.
Definition HTTP_201_CREATED : Z := 201.
Definition HTTP_400_BAD_REQUEST : Z := 400.
Definition HTTP_403_FORBIDDEN : Z := 403.
Definition HTTP_404_NOT_FOUND : Z := 404.
Definition HTTP_409_CONFLICT : Z := 409.

(** ** The request *)

(** A query parameter as [int(request.query_params[key])] sees it: the key
    is absent (KeyError), its text is no integer (ValueError), or it reads
    as an integer. *)
Inductive QueryParam :=
| absent
| not_an_integer
| integer (n : Z).

(** [request.data] with the keys the views read, and the two query
    parameters of the paginator. Values and primary keys are integers. *)
Record Request := mkRequest {
  data_name : option string;
  data_mail_address : option string;
  data_value : option Z;
  data_dst : option Z;
  query_limit : QueryParam;
  query_offset : QueryParam
}.

(** ** rest_framework.pagination.LimitOffsetPagination *)

(** [_positive_int(text, strict, cutoff)]; [None] is its ValueError (and the
    KeyError of the missing key, which the callers treat alike). *)
Definition _positive_int (p : QueryParam) (strict : bool) (cutoff : option Z)
  : option Z :=
  match p with
  | integer n =>
      if (n <? 0) || ((n =? 0) && strict) then None
      else match cutoff with
           | Some c => if c =? 0 then Some n else Some (Z.min n c)
           | None => Some n
           end
  | _ => None
  end.

Definition get_limit (max_limit default_limit : Z) (request : Request) : Z :=
  match _positive_int (query_limit request) true (Some max_limit) with
  | Some n => n
  | None => default_limit
  end.

Definition get_offset (request : Request) : Z :=
  match _positive_int (query_offset request) false None with
  | Some n => n
  | None => 0
  end.

(** [queryset[offset:offset + limit]] for non-negative bounds. *)
Definition slice {A} (rows : list A) (offset limit : Z) : list A :=
  firstn (Z.to_nat limit) (skipn (Z.to_nat offset) rows).

(** [paginator.paginate_queryset(queryset, request)] together with the
    [limit], [offset] and [count] it leaves on the paginator, for a
    paginator whose [max_limit] and [default_limit] were set as given. *)
Definition paginate_queryset {A} (max_limit default_limit : Z)
    (queryset : list A) (request : Request) : Page A :=
  let limit := get_limit max_limit default_limit request in
  let count := Z.of_nat (List.length queryset) in
  let offset := get_offset request in
  let rows :=
    if (count =? 0) || (count <? offset) then []
    else slice queryset offset limit in
  mkPage rows limit offset count.

Definition map_page {A B} (f : A -> B) (p : Page A) : Page B :=
  mkPage (map f (entries p)) (limit p) (offset p) (overall_count p).


(** ** views.py *)

Section Views.

(** The transaction boundaries of [strichliste.settings], which is not part
    of the sources. *)
Variable TRANSACTION_LOWER : Z.
Variable TRANSACTION_UPPER : Z.

(** Whether the class [UserNotFound] of serializers.py (not part of the
    sources) is a base class of [User.DoesNotExist], so that an
    [except UserNotFound] clause catches the exception of
    [User.objects.get]. *)
Variable UserNotFound_covers_DoesNotExist : bool.

(** *** serializers.py *)

(** [TransactionSerializer(data={'user': ..., 'value': ...})]. *)
Record TransactionSerializer := mkTransactionSerializer {
  initial_user : Z;
  initial_value : Z
}.

(** Modelled from the spec: serializers.py is not part of the sources.
    Section 4.1: a value of 0 fails with ValueZero, a value outside the
    configured range with ValueOutOfRange; section 4.2: a user id that does
    not resolve fails with UserNotFound. Nothing is written. *)
Definition is_valid (serializer : TransactionSerializer) : M unit :=
  fun s =>
    if negb (existsb (fun u => User.id u =? initial_user serializer) (users s))
    then (s, Raise UserNotFound)
    else if initial_value serializer =? 0
    then (s, Raise TransactionValueZero)
    else if (initial_value serializer <? TRANSACTION_LOWER)
            || (TRANSACTION_UPPER <? initial_value serializer)
    then (s, Raise TransactionValueError)
    else (s, Return tt).

(** [serializer.save()] and [serializer.save(double_entry_id=...)]: INSERT
    of a transaction row built from the validated data and the keyword; the
    row gets the next primary key and becomes [serializer.instance]. *)
Definition serializer_save (serializer : TransactionSerializer)
    (double_entry_id : option Z) : M Transaction.t :=
  fun s =>
    let instance :=
      Transaction.mk (next_transaction_id s) (initial_user serializer)
                     (initial_value serializer) double_entry_id in
    (mkStore (users s) (transactions s ++ [instance])
             (next_user_id s) (next_transaction_id s + 1),
     Return instance).

(** *** UserViewSet *)

Definition UserViewSet_create (request : Request) : M Response :=
  match data_name request with
  | None => ret (mkResponse (msg No_name_provided) HTTP_400_BAD_REQUEST)
  | Some name =>
      try_except
        (user <- User_create name (data_mail_address request) ;;
         ret (mkResponse (user_data (to_full_dict user)) HTTP_201_CREATED))
        (fun e =>
           match e with
           | IntegrityError =>
               Some (ret (mkResponse (msg (user_already_exists name))
                                     HTTP_409_CONFLICT))
           | _ => None
           end)
  end.

Definition UserViewSet_list (request : Request) : M Response :=
  queryset <- User_objects_filter_active ;;
  let users := paginate_queryset 250 100 queryset request in
  ret (mkResponse (user_page (map_page to_dict users)) HTTP_200_OK).

Definition UserViewSet_retrieve (request : Request) (pk : Z) : M Response :=
  try_except
    (user <- User_objects_get pk ;;
     ret (mkResponse (user_data (to_full_dict user)) HTTP_200_OK))
    (fun e =>
       match e with
       | User_DoesNotExist =>
           Some (ret (mkResponse (msg (user_not_found pk)) HTTP_404_NOT_FOUND))
       | _ => None
       end).

(** *** UserTransactionViewSet *)

Definition UserTransactionViewSet_list (request : Request) (user_pk : Z)
  : M Response :=
  try_except
    (user <- User_objects_get user_pk ;;
     queryset <- Transaction_objects_filter_user user ;;
     let transactions := paginate_queryset 250 100 queryset request in
     ret (mkResponse (transaction_page (map_page transaction_to_dict transactions))
                     HTTP_200_OK))
    (fun e =>
       match e with
       | User_DoesNotExist =>
           Some (ret (mkResponse (msg (user_not_found user_pk)) HTTP_404_NOT_FOUND))
       | _ => None
       end).

Definition UserTransactionViewSet_retrieve (request : Request) (pk user_pk : Z)
  : M Response :=
  user <- User_objects_get user_pk ;;
  transactions <- Transaction_objects_filter_user_id user pk ;;
  match transactions with
  | [] => ret (mkResponse (msg transaction_not_found) HTTP_404_NOT_FOUND)
  | [x] => ret (mkResponse (transaction_data (transaction_to_dict x)) HTTP_200_OK)
  | _ => raise AssertionError
  end.

(** The block under [with transaction.atomic()] of
    [create_single_entry_transaction]. *)
Definition single_entry_block (user_id value : Z) : M Response :=
  let serializer := mkTransactionSerializer user_id value in
  user <- User_objects_get user_id ;;
  is_valid serializer ;;;
  instance <- serializer_save serializer None ;;
  let user := User.set_balance user (User.balance user + value) in
  User_save user ;;;
  ret (mkResponse (transaction_data (transaction_to_dict instance)) HTTP_201_CREATED).

Definition create_single_entry_transaction (user_id value : Z) : M Response :=
  atomic (single_entry_block user_id value).

(** The block under [with transaction.atomic()] of
    [create_double_entry_transactions]. [src_account] and [dst_account] are
    two instances, each with the balance it was read with. *)
Definition double_entry_block (src_account_id dst_account_id value : Z)
  : M Response :=
  dst_account <- User_objects_get dst_account_id ;;
  src_account <- User_objects_get src_account_id ;;
  let serializer_1 := mkTransactionSerializer (User.id src_account) value in
  is_valid serializer_1 ;;;
  let serializer_2 := mkTransactionSerializer (User.id dst_account) (- value) in
  is_valid serializer_2 ;;;
  instance_1 <- serializer_save serializer_1 None ;;
  instance_2 <- serializer_save serializer_2 (Some (Transaction.id instance_1)) ;;
  let instance_1 :=
    Transaction.set_double_entry_id instance_1 (Some (Transaction.id instance_2)) in
  Transaction_save instance_1 ;;;
  let src_account := User.set_balance src_account (User.balance src_account + value) in
  User_save src_account ;;;
  let dst_account := User.set_balance dst_account (User.balance dst_account + - value) in
  User_save dst_account ;;;
  ret (mkResponse (transaction_data (transaction_to_dict instance_1)) HTTP_201_CREATED).

Definition create_double_entry_transactions (src_account_id dst_account_id value : Z)
  : M Response :=
  atomic (double_entry_block src_account_id dst_account_id value).

(** Whether [except UserNotFound] catches [e]. *)
Definition isinstance_UserNotFound (e : Exception) : bool :=
  match e with
  | UserNotFound => true
  | User_DoesNotExist => UserNotFound_covers_DoesNotExist
  | _ => false
  end.

(** The three [except] clauses of [create], the same on both branches. *)
Definition create_except (e : Exception) : option (M Response) :=
  if isinstance_UserNotFound e
  then Some (ret (mkResponse (msg (exception_text e)) HTTP_404_NOT_FOUND))
  else match e with
       | TransactionValueZero =>
           Some (ret (mkResponse (msg (exception_text e)) HTTP_400_BAD_REQUEST))
       | TransactionValueError =>
           Some (ret (mkResponse (msg (exception_text e)) HTTP_403_FORBIDDEN))
       | _ => None
       end.

Definition UserTransactionViewSet_create (request : Request) (user_pk : Z)
  : M Response :=
  match data_value request with
  | None => ret (mkResponse (msg Value_missing) HTTP_400_BAD_REQUEST)
  | Some value =>
      match data_dst request with
      | None =>
          try_except (create_single_entry_transaction user_pk value) create_except
      | Some target_account_id =>
          try_except
            (create_double_entry_transactions user_pk target_account_id value)
            create_except
      end
  end.

(** *** TransactionViewSet *)

Definition TransactionViewSet_list (request : Request) : M Response :=
  queryset <- Transaction_objects_all ;;
  let transactions := paginate_queryset 250 100 queryset request in
  ret (mkResponse (transaction_page (map_page transaction_to_dict transactions))
                  HTTP_200_OK).

Definition TransactionViewSet_retrieve (request : Request) (pk : Z) : M Response :=
  transactions <- Transaction_objects_filter_id pk ;;
  match transactions with
  | [] => ret (mkResponse (msg transaction_not_found) HTTP_404_NOT_FOUND)
  | [x] => ret (mkResponse (transaction_data (transaction_to_dict x)) HTTP_200_OK)
  | _ => raise AssertionError
  end.

(** *** DebugViewSet *)

Definition sum_values (rows : list Transaction.t) : Z :=
  fold_right Z.add 0 (map Transaction.value rows).

(** Modelled from the spec: [User.calc_balance] is in models.py; sections 3
    and 8 make it the sum of the values of the transactions of the user,
    [sum(t.value for t in transactions of U)]. *)
Definition calc_balance (user_id : Z) (s : Store) : Z :=
  sum_values (filter (fun x => Transaction.user x =? user_id) (transactions s)).

(** [all(user.balance == user.calc_balance() for user in User.objects.all())],
    the test of [DebugViewSet.check_balance]. *)
Definition balances_match (s : Store) : bool :=
  forallb (fun user => User.balance user =? calc_balance (User.id user) s) (users s).

Definition DebugViewSet_check_balance : M string :=
  fun s =>
    (s, Return (if balances_match s then "Everything matches"%string
                else "Differences detected"%string)).

Definition DebugViewSet_clear : M string :=
  fun s =>
    (mkStore [] [] (next_user_id s) (next_transaction_id s),
     Return "All cleared"%string).

(** ** Stores, histories and the invariants of the ledger *)

(** What the database guarantees of its own: transaction keys are unique and
    below the next key of the sequence, and every foreign key and every user
    key is below the next user key. *)
Definition well_formed (s : Store) : Prop :=
  NoDup (map Transaction.id (transactions s))
  /\ (forall x, In x (transactions s) -> Transaction.id x < next_transaction_id s)
  /\ (forall x, In x (transactions s) -> Transaction.user x < next_user_id s)
  /\ (forall u, In u (users s) -> User.id u < next_user_id s).

(** The reconciliation invariant, as [DebugViewSet.check_balance] tests it. *)
Definition reconciled (s : Store) : Prop := balances_match s = true.

(** The pairing of the two legs, without the clause on their users. *)
Definition double_entry_links (s : Store) : Prop :=
  forall T d,
    In T (transactions s) ->
    Transaction.double_entry_id T = Some d ->
    exists D,
      In D (transactions s)
      /\ Transaction.id D = d
      /\ Transaction.value D = - Transaction.value T
      /\ Transaction.double_entry_id D = Some (Transaction.id T).

(** The double-entry invariant of section 8. *)
Definition double_entry_invariant (s : Store) : Prop :=
  forall T d,
    In T (transactions s) ->
    Transaction.double_entry_id T = Some d ->
    exists D,
      In D (transactions s)
      /\ Transaction.id D = d
      /\ Transaction.value D = - Transaction.value T
      /\ Transaction.double_entry_id D = Some (Transaction.id T)
      /\ Transaction.user D <> Transaction.user T.

(** The operations that write: registering a user and the two ways of
    creating transactions. *)
Inductive Operation :=
| register (name : string) (mail_address : option string)
| single_entry (user_id value : Z)
| double_entry (src_account_id dst_account_id value : Z).

Definition perform (op : Operation) : M Response :=
  match op with
  | register name mail_address =>
      UserViewSet_create (mkRequest (Some name) mail_address None None absent absent)
  | single_entry user_id value =>
      create_single_entry_transaction user_id value
  | double_entry src_account_id dst_account_id value =>
      create_double_entry_transactions src_account_id dst_account_id value
  end.

(** The store after a sequence of operations all of which returned. *)
Fixpoint replay (ops : list Operation) (s : Store) : option Store :=
  match ops with
  | [] => Some s
  | op :: ops' =>
      match perform op s with
      | (s', Return _) => replay ops' s'
      | (_, Raise _) => None
      end
  end.

Definition distinct_accounts (op : Operation) : Prop :=
  match op with
  | double_entry src_account_id dst_account_id _ => src_account_id <> dst_account_id
  | _ => True
  end.

Definition user_exists (pk : Z) (s : Store) : bool :=
  existsb (fun u => User.id u =? pk) (users s).

Definition out_of_range (value : Z) : bool :=
  (value <? TRANSACTION_LOWER) || (TRANSACTION_UPPER <? value).

Definition referenced_users_exist (request : Request) (user_pk : Z) (s : Store)
  : bool :=
  user_exists user_pk s
  && match data_dst request with
     | Some target_account_id => user_exists target_account_id s
     | None => true
     end.

(** The status of [POST /users/{id}/transactions] in the order section 6
    lists the cases: the value first, the users after it. *)
Definition status_as_listed (request : Request) (user_pk : Z) (s : Store) : Z :=
  match data_value request with
  | None => 400
  | Some value =>
      if value =? 0 then 400
      else if out_of_range value then 403
      else if negb (referenced_users_exist request user_pk s) then 404
      else 201
  end.

(** The outcome in the order the code decides it: the users are looked up
    before the value is validated, a double entry validates the value and
    its negation, and the exception of a failed lookup is answered by the
    [except UserNotFound] clause only when that class covers it. *)
Definition outcome_in_code_order (request : Request) (user_pk : Z) (s : Store)
  : Result Z :=
  match data_value request with
  | None => Return 400
  | Some value =>
      if negb (referenced_users_exist request user_pk s)
      then if UserNotFound_covers_DoesNotExist
           then Return 404 else Raise User_DoesNotExist
      else if value =? 0 then Return 400
      else if out_of_range value
              || match data_dst request with
                 | Some _ => out_of_range (- value)
                 | None => false
                 end
      then Return 403
      else Return 201
  end.

Definition status_of (r : Result Response) : Result Z :=
  match r with
  | Return response => Return (status response)
  | Raise e => Raise e
  end.

(** The limit and the offset of a page in the words of section 4.4: the
    limit asked for, at most 250, and 100 when none is given (or when what is
    given is no positive integer); the offset asked for, 0 when none is. *)
Definition limit_of (request : Request) : Z :=
  match query_limit request with
  | integer n => if 1 <=? n then Z.min n 250 else 100
  | _ => 100
  end.

Definition offset_of (request : Request) : Z :=
  match query_offset request with
  | integer n => if 0 <=? n then n else 0
  | _ => 0
  end.

(** [p] is the page of the rows [matching], shown through [f]: the count of
    all matching rows, the limit and offset of the request, and as entries
    the rows of that window, never more than the limit nor than 250. *)
Definition paginated {A B} (f : A -> B) (matching : list A) (request : Request)
    (p : Page B) : Prop :=
  overall_count p = Z.of_nat (List.length matching)
  /\ limit p = limit_of request
  /\ offset p = offset_of request
  /\ entries p = map f (slice matching (offset p) (limit p))
  /\ 1 <= limit p <= 250
  /\ Z.of_nat (List.length (entries p)) <= limit p.

(** ** Example stores *)

Definition alice : User.t := User.mk 1 "alice" None 0 true.
Definition bob : User.t := User.mk 2 "bob" (Some "bob@example.org"%string) 0 true.
Definition carol : User.t := User.mk 3 "carol" None 0 false.

Definition empty_store : Store := mkStore [] [] 1 1.
Definition three_users : Store := mkStore [alice; bob; carol] [] 4 1.

(** [three_users] after a double entry of 30 from user 1 to user 2. *)
Definition after_transfer : Store :=
  mkStore
    [User.mk 1 "alice" None 30 true;
     User.mk 2 "bob" (Some "bob@example.org"%string) (-30) true;
     carol]
    [Transaction.mk 1 1 30 (Some 2); Transaction.mk 2 2 (-30) (Some 1)]
    4 3.

(** [three_users] after a double entry of 30 from user 1 to user 1. *)
Definition after_self_transfer : Store :=
  mkStore
    [User.mk 1 "alice" None (-30) true; bob; carol]
    [Transaction.mk 1 1 30 (Some 2); Transaction.mk 2 1 (-30) (Some 1)]
    4 3.

(** The scenario of section 8: two users, a single entry of 100 for the
    first, a double entry of 30 from the first to the second. *)
Definition scenario : list Operation :=
  [register "A" None; register "B" None; single_entry 1 100; double_entry 1 2 30].

Definition after_scenario : Store :=
  mkStore
    [User.mk 1 "A" None 130 true; User.mk 2 "B" None (-30) true]
    [Transaction.mk 1 1 100 None;
     Transaction.mk 2 1 30 (Some 3);
     Transaction.mk 3 2 (-30) (Some 2)]
    3 4.

(** [three_users] after the registration of a fourth user. *)
Definition dave : User.t := User.mk 4 "dave" (Some "dave@example.org"%string) 0 true.

Definition after_registration : Store :=
  mkStore [alice; bob; carol; dave] [] 5 1.

(** [after_transfer] after the debug command 'clear'. *)
Definition after_transfer_cleared : Store := mkStore [] [] 4 3.

Definition plain_request : Request :=
  mkRequest None None None None absent absent.

Definition post_transaction (value : Z) (dst : option Z) : Request :=
  mkRequest None None (Some value) dst absent absent.

(** ** DebugViewSet, the two views *)

(** [settings.DEBUG]; strichliste.settings is not part of the sources. *)
Variable DEBUG : bool.

(** What a debug view sends back: the body [{'msg': ...}] or no body at
    all, and the status. *)
Record DebugResponse := mkDebugResponse {
  debug_msg : option string;
  debug_status : Z
}.

Definition HTTP_501_NOT_IMPLEMENTED : Z := 501.

(** How [DebugViewSet.retrieve] ends: with a response, with the KeyError of
    [commands[pk]] for a key that names no command, or with an exception of
    the command it ran. *)
Inductive DebugOutcome :=
| answered (response : DebugResponse)
| KeyError (key : string)
| command_raised (e : Exception).

Definition DebugViewSet_list (request : Request) : Store -> Store * DebugOutcome :=
  fun s =>
    if DEBUG
    then (s, answered (mkDebugResponse (Some "Debug active"%string) HTTP_200_OK))
    else (s, answered (mkDebugResponse None HTTP_501_NOT_IMPLEMENTED)).

(** The dict [commands] of [DebugViewSet.retrieve]. *)
Definition commands (pk : string) : option (M string) :=
  if String.eqb pk "clear" then Some DebugViewSet_clear
  else if String.eqb pk "check_balance" then Some DebugViewSet_check_balance
  else None.

Definition DebugViewSet_retrieve (request : Request) (pk : string)
  : Store -> Store * DebugOutcome :=
  fun s =>
    if DEBUG
    then match commands pk with
         | None => (s, KeyError pk)
         | Some command =>
             match command s with
             | (s', Return res) =>
                 (s', answered (mkDebugResponse (Some res) HTTP_200_OK))
             | (s', Raise e) => (s', command_raised e)
             end
         end
    else (s, answered (mkDebugResponse None HTTP_501_NOT_IMPLEMENTED)).

(** ** Further notions for the properties of the views *)

(** The unique constraints of the user table: the primary key and the
    name. *)
Definition unique_users (s : Store) : Prop :=
  NoDup (map User.id (users s)) /\ NoDup (map User.name (users s)).

(** A user row without its balance. *)
Definition profile (u : User.t) : User.t := User.set_balance u 0.

Definition total_balance (s : Store) : Z :=
  fold_right Z.add 0 (map User.balance (users s)).

Definition total_value (s : Store) : Z := sum_values (transactions s).

(** [GET ...?limit=...&offset=...]. *)
Definition page_request (limit offset : Z) : Request :=
  mkRequest None None None None (integer limit) (integer offset).

(** [POST /users {name, mail_address}]. *)
Definition register_request (name : string) (mail_address : option string)
  : Request :=
  mkRequest (Some name) mail_address None None absent absent.

(** ** Writes the database may refuse *)

(** What the database refuses to write: for the store as it is and the row
    about to be written, the exception with which the statement fails, if
    it does (a constraint, a value the column cannot hold, a lost
    connection). A statement that fails writes nothing. *)
Record WriteFailures := mkWriteFailures {
  refuses_transaction : Store -> Transaction.t -> option Exception;
  refuses_user : Store -> User.t -> option Exception
}.

(** The database of the other sections, which accepts every write. *)
Definition no_failures : WriteFailures :=
  mkWriteFailures (fun _ _ => None) (fun _ _ => None).

(** [serializer.save()], which may raise. *)
Definition serializer_save_on (db : WriteFailures)
    (serializer : TransactionSerializer) (double_entry_id : option Z)
  : M Transaction.t :=
  fun s =>
    match refuses_transaction db s
            (Transaction.mk (next_transaction_id s) (initial_user serializer)
                            (initial_value serializer) double_entry_id) with
    | Some e => (s, Raise e)
    | None => serializer_save serializer double_entry_id s
    end.

(** [user.save()], which may raise. *)
Definition User_save_on (db : WriteFailures) (u : User.t) : M unit :=
  fun s =>
    match refuses_user db s u with
    | Some e => (s, Raise e)
    | None => User_save u s
    end.

(** The block and the operation of [create_single_entry_transaction] on
    such a database: the same statements in the same order. *)
Definition single_entry_block_on (db : WriteFailures) (user_id value : Z)
  : M Response :=
  let serializer := mkTransactionSerializer user_id value in
  user <- User_objects_get user_id ;;
  is_valid serializer ;;;
  instance <- serializer_save_on db serializer None ;;
  let user := User.set_balance user (User.balance user + value) in
  User_save_on db user ;;;
  ret (mkResponse (transaction_data (transaction_to_dict instance)) HTTP_201_CREATED).

Definition create_single_entry_transaction_on (db : WriteFailures)
    (user_id value : Z) : M Response :=
  atomic (single_entry_block_on db user_id value).

(** The row a single entry inserts, and the store once it is inserted and
    the balance not yet saved. *)
Definition new_single_entry (s : Store) (user_id value : Z) : Transaction.t :=
  Transaction.mk (next_transaction_id s) user_id value None.

Definition with_transaction (s : Store) (x : Transaction.t) : Store :=
  mkStore (users s) (transactions s ++ [x])
          (next_user_id s) (next_transaction_id s + 1).

(** A database with a check on the balance column: no balance above 50. *)
Definition balances_up_to_50 : WriteFailures :=
  mkWriteFailures
    (fun _ _ => None)
    (fun _ u => if 50 <? User.balance u then Some IntegrityError else None).

(** The entries of the page a list view answered with; no entries when the
    view answered with something else or raised. *)
Definition listed_transactions (outcome : Store * Result Response)
  : list Transaction.t :=
  match snd outcome with
  | Return response =>
      match data response with
      | transaction_page p => entries p
      | _ => []
      end
  | Raise _ => []
  end.

Definition listed_users (outcome : Store * Result Response) : list UserDict :=
  match snd outcome with
  | Return response =>
      match data response with
      | user_page p => entries p
      | _ => []
      end
  | Raise _ => []
  end.

(** ** Lookups and row updates *)

Lemma find_user_some (pk : Z) (rows : list User.t) (u : User.t) :
  find (fun r => User.id r =? pk) rows = Some u ->
  In u rows /\ User.id u = pk.
Proof.
  intros H. apply find_some in H. destruct H as [Hin Heq].
  split; [assumption | now apply Z.eqb_eq].
Qed.

Lemma find_user_exists (pk : Z) (rows : list User.t) (u : User.t) :
  find (fun r => User.id r =? pk) rows = Some u ->
  existsb (fun r => User.id r =? pk) rows = true.
Proof.
  intros H. apply find_some in H. apply existsb_exists. now exists u.
Qed.

Lemma find_user_none (pk : Z) (rows : list User.t) :
  find (fun r => User.id r =? pk) rows = None ->
  existsb (fun r => User.id r =? pk) rows = false.
Proof.
  induction rows as [|r rows IH]; simpl; [reflexivity|].
  destruct (User.id r =? pk); [discriminate | exact IH].
Qed.

Lemma user_exists_find (pk : Z) (s : Store) :
  user_exists pk s = true <->
  exists u, find (fun r => User.id r =? pk) (users s) = Some u.
Proof.
  unfold user_exists. split.
  - intros H. destruct (find _ (users s)) as [u|] eqn:E; [now exists u|].
    apply find_user_none in E. congruence.
  - intros [u E]. now apply find_user_exists in E.
Qed.

Lemma find_update_user_rows_same (u : User.t) (rows : list User.t) :
  existsb (fun r => User.id r =? User.id u) rows = true ->
  find (fun r => User.id r =? User.id u) (update_user_rows u rows) = Some u.
Proof.
  induction rows as [|r rows IH]; simpl; [discriminate|].
  destruct (User.id r =? User.id u) eqn:E; simpl.
  - intros _. now rewrite Z.eqb_refl.
  - rewrite E. exact IH.
Qed.

Lemma find_update_user_rows_pk (u : User.t) (pk : Z) (rows : list User.t) :
  User.id u = pk ->
  existsb (fun r => User.id r =? pk) rows = true ->
  find (fun r => User.id r =? pk) (update_user_rows u rows) = Some u.
Proof.
  intros <-. apply find_update_user_rows_same.
Qed.

Lemma find_update_user_rows_other (u : User.t) (pk : Z) (rows : list User.t) :
  pk <> User.id u ->
  find (fun r => User.id r =? pk) (update_user_rows u rows)
  = find (fun r => User.id r =? pk) rows.
Proof.
  intros Hne. induction rows as [|r rows IH]; simpl; [reflexivity|].
  destruct (User.id r =? User.id u) eqn:E.
  - apply Z.eqb_eq in E.
    assert ((User.id u =? pk) = false) as -> by (apply Z.eqb_neq; congruence).
    assert ((User.id r =? pk) = false) as -> by (apply Z.eqb_neq; congruence).
    exact IH.
  - destruct (User.id r =? pk); [reflexivity | exact IH].
Qed.

Lemma existsb_update_user_rows (u : User.t) (pk : Z) (rows : list User.t) :
  existsb (fun r => User.id r =? pk) (update_user_rows u rows)
  = existsb (fun r => User.id r =? pk) rows.
Proof.
  induction rows as [|r rows IH]; simpl; [reflexivity|].
  rewrite IH. destruct (User.id r =? User.id u) eqn:E; [|reflexivity].
  apply Z.eqb_eq in E. now rewrite E.
Qed.

Lemma in_update_user_rows (u x : User.t) (rows : list User.t) :
  In x (update_user_rows u rows) ->
  (x = u /\ exists r, In r rows /\ User.id r = User.id u)
  \/ (In x rows /\ User.id x <> User.id u).
Proof.
  unfold update_user_rows. intros H. apply in_map_iff in H.
  destruct H as [r [Hx Hr]].
  destruct (User.id r =? User.id u) eqn:E.
  - left. apply Z.eqb_eq in E. split; [now symmetry | now exists r].
  - right. apply Z.eqb_neq in E. subst x. now split.
Qed.

Lemma update_transaction_rows_fresh (x : Transaction.t) (rows : list Transaction.t) :
  (forall r, In r rows -> Transaction.id r <> Transaction.id x) ->
  update_transaction_rows x rows = rows.
Proof.
  intros H. unfold update_transaction_rows.
  rewrite <- (map_id rows) at 2. apply map_ext_in.
  intros r Hr. apply H in Hr.
  now assert ((Transaction.id r =? Transaction.id x) = false) as ->
    by now apply Z.eqb_neq.
Qed.

(** ** The two blocks, case by case *)

Lemma single_entry_block_eq (s : Store) (user_id value : Z) :
  single_entry_block user_id value s =
  match find (fun u => User.id u =? user_id) (users s) with
  | None => (s, Raise User_DoesNotExist)
  | Some user =>
      if value =? 0 then (s, Raise TransactionValueZero)
      else if out_of_range value then (s, Raise TransactionValueError)
      else
        let instance := Transaction.mk (next_transaction_id s) user_id value None in
        (mkStore
           (update_user_rows (User.set_balance user (User.balance user + value))
                             (users s))
           (transactions s ++ [instance])
           (next_user_id s) (next_transaction_id s + 1),
         Return (mkResponse (transaction_data instance) HTTP_201_CREATED))
  end.
Proof.
  unfold single_entry_block, bind, User_objects_get, is_valid, out_of_range.
  destruct (find _ (users s)) as [user|] eqn:Hfind; [|reflexivity].
  cbn [initial_user initial_value].
  rewrite (find_user_exists _ _ _ Hfind). cbn [negb].
  destruct (value =? 0); [reflexivity|].
  destruct ((value <? TRANSACTION_LOWER) || (TRANSACTION_UPPER <? value));
    [reflexivity|].
  destruct (find_user_some _ _ _ Hfind) as [_ Hid].
  unfold serializer_save, User_save, ret, transaction_to_dict.
  cbn [users transactions next_user_id next_transaction_id
       initial_user initial_value User.set_balance User.id].
  rewrite Hid, (find_user_exists _ _ _ Hfind). reflexivity.
Qed.

Lemma double_entry_block_eq (s : Store) (src_account_id dst_account_id value : Z) :
  double_entry_block src_account_id dst_account_id value s =
  match find (fun u => User.id u =? dst_account_id) (users s) with
  | None => (s, Raise User_DoesNotExist)
  | Some dst_account =>
      match find (fun u => User.id u =? src_account_id) (users s) with
      | None => (s, Raise User_DoesNotExist)
      | Some src_account =>
          if value =? 0 then (s, Raise TransactionValueZero)
          else if out_of_range value || out_of_range (- value)
          then (s, Raise TransactionValueError)
          else
            let n := next_transaction_id s in
            let instance_1 := Transaction.mk n src_account_id value (Some (n + 1)) in
            let instance_2 := Transaction.mk (n + 1) dst_account_id (- value) (Some n) in
            (mkStore
               (update_user_rows
                  (User.set_balance dst_account (User.balance dst_account + - value))
                  (update_user_rows
                     (User.set_balance src_account (User.balance src_account + value))
                     (users s)))
               (update_transaction_rows instance_1
                  (transactions s
                   ++ [Transaction.mk n src_account_id value None; instance_2]))
               (next_user_id s) (n + 1 + 1),
             Return (mkResponse (transaction_data instance_1) HTTP_201_CREATED))
      end
  end.
Proof.
  unfold double_entry_block, bind, User_objects_get, is_valid, out_of_range.
  destruct (find _ (users s)) as [dst_account|] eqn:Hdst; [|reflexivity].
  destruct (find (fun u => User.id u =? src_account_id) (users s))
    as [src_account|] eqn:Hsrc; [|reflexivity].
  destruct (find_user_some _ _ _ Hdst) as [_ Hd].
  destruct (find_user_some _ _ _ Hsrc) as [_ Hs].
  cbn [initial_user initial_value].
  rewrite Hs, Hd, (find_user_exists _ _ _ Hsrc). cbn [negb].
  destruct (value =? 0) eqn:Hz; [reflexivity|].
  destruct ((value <? TRANSACTION_LOWER) || (TRANSACTION_UPPER <? value));
    [reflexivity|].
  cbn [initial_user initial_value orb].
  rewrite (find_user_exists _ _ _ Hdst). cbn [negb].
  assert ((- value =? 0) = false) as ->
    by (apply Z.eqb_neq; apply Z.eqb_neq in Hz; lia).
  destruct ((- value <? TRANSACTION_LOWER) || (TRANSACTION_UPPER <? - value));
    [reflexivity|].
  unfold serializer_save, Transaction_save, User_save, ret, transaction_to_dict.
  cbn [users transactions next_user_id next_transaction_id
       initial_user initial_value User.set_balance User.id
       Transaction.set_double_entry_id Transaction.id Transaction.user
       Transaction.value].
  rewrite <- !app_assoc. cbn [app].
  rewrite existsb_app. cbn [existsb Transaction.id].
  rewrite Z.eqb_refl. cbn [orb]. rewrite orb_true_r.
  rewrite Hs, (find_user_exists _ _ _ Hsrc).
  rewrite Hd, existsb_update_user_rows, (find_user_exists _ _ _ Hdst).
  reflexivity.
Qed.

Lemma atomic_eq {A} (body : M A) (s : Store) :
  atomic body s =
  match snd (body s) with
  | Return a => (fst (body s), Return a)
  | Raise e => (s, Raise e)
  end.
Proof.
  unfold atomic. destruct (body s) as [s' [a|e]]; reflexivity.
Qed.

Lemma User_objects_get_eq (pk : Z) (s s' : Store) (r : Result User.t) :
  User_objects_get pk s = (s', r) ->
  s' = s
  /\ r = match find (fun u => User.id u =? pk) (users s) with
         | Some u => Return u
         | None => Raise User_DoesNotExist
         end.
Proof.
  unfold User_objects_get. destruct (find _ (users s)); intros H;
    inversion H; now split.
Qed.

(** A block that raises has written nothing yet: every lookup and both
    validations come before the first save. *)
Lemma double_entry_block_raise (s s' : Store) (src dst value : Z) (e : Exception) :
  double_entry_block src dst value s = (s', Raise e) ->
  s' = s
  /\ (user_exists src s = false \/ user_exists dst s = false \/ value = 0
      \/ out_of_range value = true \/ out_of_range (- value) = true).
Proof.
  rewrite double_entry_block_eq. unfold user_exists.
  destruct (find (fun u => User.id u =? dst) (users s)) eqn:Hdst.
  2:{ intros H. inversion H; subst. apply find_user_none in Hdst. tauto. }
  destruct (find (fun u => User.id u =? src) (users s)) eqn:Hsrc.
  2:{ intros H. inversion H; subst. apply find_user_none in Hsrc. tauto. }
  destruct (value =? 0) eqn:Hz.
  { intros H. inversion H; subst. apply Z.eqb_eq in Hz. tauto. }
  destruct (out_of_range value) eqn:Hv.
  { intros H. inversion H; subst. tauto. }
  destruct (out_of_range (- value)) eqn:Hn.
  { intros H. inversion H; subst. tauto. }
  cbn. discriminate.
Qed.

(** C1: a double-entry creation that fails validation, because either user
    is missing or because the value or its negation is refused, raises and
    leaves the store as it was: the block under [transaction.atomic()] has
    written nothing when it raises, and the operation ends in the store it
    started from, so no transaction row is new and no balance has moved. *)
Theorem double_entry_failure_leaves_store (s : Store) (src dst value : Z) :
  user_exists src s = false \/ user_exists dst s = false \/ value = 0
  \/ out_of_range value = true \/ out_of_range (- value) = true ->
  exists e,
    double_entry_block src dst value s = (s, Raise e)
    /\ create_double_entry_transactions src dst value s = (s, Raise e).
Proof.
  intros Hfail.
  assert (exists e, double_entry_block src dst value s = (s, Raise e)) as [e He].
  { rewrite double_entry_block_eq. unfold user_exists in Hfail.
    destruct (find (fun u => User.id u =? dst) (users s)) eqn:Hdst;
      [|now eexists].
    destruct (find (fun u => User.id u =? src) (users s)) eqn:Hsrc;
      [|now eexists].
    apply find_user_exists in Hdst, Hsrc.
    destruct (value =? 0) eqn:Hz; [now eexists|].
    apply Z.eqb_neq in Hz.
    destruct (out_of_range value) eqn:Hv; [now eexists|].
    destruct (out_of_range (- value)) eqn:Hn; [now eexists|].
    exfalso. destruct Hfail as [H|[H|[H|[H|H]]]]; congruence. }
  exists e. split; [exact He|].
  unfold create_double_entry_transactions. now rewrite atomic_eq, He.
Qed.

(** Any exception of the operation, whatever its cause, leaves the store. *)
Lemma create_double_entry_raise (s s' : Store) (src dst value : Z) (e : Exception) :
  create_double_entry_transactions src dst value s = (s', Raise e) -> s' = s.
Proof.
  unfold create_double_entry_transactions. rewrite atomic_eq.
  destruct (snd (double_entry_block src dst value s)); intros H;
    inversion H; reflexivity.
Qed.

Lemma create_single_entry_raise (s s' : Store) (user_id value : Z) (e : Exception) :
  create_single_entry_transaction user_id value s = (s', Raise e) -> s' = s.
Proof.
  unfold create_single_entry_transaction. rewrite atomic_eq.
  destruct (snd (single_entry_block user_id value s)); intros H;
    inversion H; reflexivity.
Qed.

Lemma create_single_entry_eq (s : Store) (user_id value : Z) :
  create_single_entry_transaction user_id value s
  = single_entry_block user_id value s.
Proof.
  unfold create_single_entry_transaction. rewrite atomic_eq.
  rewrite single_entry_block_eq.
  destruct (find _ (users s)); [|reflexivity].
  destruct (value =? 0); [reflexivity|].
  destruct (out_of_range value); reflexivity.
Qed.

Lemma create_double_entry_eq (s : Store) (src dst value : Z) :
  create_double_entry_transactions src dst value s
  = double_entry_block src dst value s.
Proof.
  unfold create_double_entry_transactions. rewrite atomic_eq.
  rewrite double_entry_block_eq.
  destruct (find _ (users s)); [|reflexivity].
  destruct (find _ (users s)); [|reflexivity].
  destruct (value =? 0); [reflexivity|].
  destruct (out_of_range value || out_of_range (- value)); reflexivity.
Qed.

(** ** What a successful creation writes *)

Lemma filter_none {A} (f : A -> bool) (rows : list A) :
  (forall x, In x rows -> f x = false) -> filter f rows = [].
Proof.
  induction rows as [|r rows IH]; intros H; simpl; [reflexivity|].
  rewrite (H r) by now left. apply IH. intros x Hx. apply H. now right.
Qed.

Lemma filter_id_fresh (pk : Z) (rows : list Transaction.t) :
  (forall r, In r rows -> Transaction.id r <> pk) ->
  filter (fun x => Transaction.id x =? pk) rows = [].
Proof.
  induction rows as [|r rows IH]; intros H; simpl; [reflexivity|].
  assert ((Transaction.id r =? pk) = false) as ->
    by (apply Z.eqb_neq, H; now left).
  apply IH. intros r' Hr'. apply H. now right.
Qed.

Lemma linked_rows (s : Store) (src dst value : Z) :
  (forall x, In x (transactions s) -> Transaction.id x < next_transaction_id s) ->
  let n := next_transaction_id s in
  update_transaction_rows (Transaction.mk n src value (Some (n + 1)))
    (transactions s
     ++ [Transaction.mk n src value None; Transaction.mk (n + 1) dst (- value) (Some n)])
  = transactions s
    ++ [Transaction.mk n src value (Some (n + 1));
        Transaction.mk (n + 1) dst (- value) (Some n)].
Proof.
  intros Hlt n. unfold update_transaction_rows. rewrite map_app.
  fold (update_transaction_rows (Transaction.mk n src value (Some (n + 1)))
          (transactions s)).
  rewrite update_transaction_rows_fresh.
  - cbn [map Transaction.id]. rewrite Z.eqb_refl.
    now assert ((n + 1 =? n) = false) as -> by (apply Z.eqb_neq; lia).
  - intros r Hr. apply Hlt in Hr. cbn [Transaction.id]. fold n in Hr. lia.
Qed.

Lemma create_double_entry_return (s s' : Store) (src dst value : Z)
    (response : Response) :
  create_double_entry_transactions src dst value s = (s', Return response) ->
  exists src_account dst_account,
    find (fun u => User.id u =? src) (users s) = Some src_account
    /\ find (fun u => User.id u =? dst) (users s) = Some dst_account
    /\ value <> 0
    /\ out_of_range value = false
    /\ out_of_range (- value) = false
    /\ create_double_entry_transactions src dst value s =
       let n := next_transaction_id s in
       let instance_1 := Transaction.mk n src value (Some (n + 1)) in
       (mkStore
          (update_user_rows
             (User.set_balance dst_account (User.balance dst_account + - value))
             (update_user_rows
                (User.set_balance src_account (User.balance src_account + value))
                (users s)))
          (update_transaction_rows instance_1
             (transactions s
              ++ [Transaction.mk n src value None;
                  Transaction.mk (n + 1) dst (- value) (Some n)]))
          (next_user_id s) (n + 1 + 1),
        Return (mkResponse (transaction_data instance_1) HTTP_201_CREATED)).
Proof.
  rewrite create_double_entry_eq, double_entry_block_eq.
  destruct (find (fun u => User.id u =? dst) (users s)) as [dst_account|];
    [|discriminate].
  destruct (find (fun u => User.id u =? src) (users s)) as [src_account|];
    [|discriminate].
  destruct (value =? 0) eqn:Hz; [discriminate|].
  destruct (out_of_range value) eqn:Hv; [discriminate|].
  destruct (out_of_range (- value)) eqn:Hn; [discriminate|].
  intros _. exists src_account, dst_account.
  apply Z.eqb_neq in Hz. repeat split; trivial.
Qed.

(** The creations return whenever validation passes. *)
Lemma create_double_entry_returns (s : Store) (src dst value : Z) :
  user_exists src s = true ->
  user_exists dst s = true ->
  value <> 0 ->
  out_of_range value = false ->
  out_of_range (- value) = false ->
  exists s' response,
    create_double_entry_transactions src dst value s = (s', Return response)
    /\ status response = HTTP_201_CREATED.
Proof.
  intros Hsrc Hdst Hnz Hv Hn.
  apply user_exists_find in Hsrc, Hdst.
  destruct Hsrc as [a Ha]. destruct Hdst as [d Hd].
  rewrite create_double_entry_eq, double_entry_block_eq, Ha, Hd, Hv, Hn.
  assert ((value =? 0) = false) as -> by now apply Z.eqb_neq.
  cbv zeta. cbn [orb]. eexists. eexists. split; reflexivity.
Qed.

Lemma create_single_entry_returns (s : Store) (user_id value : Z) :
  user_exists user_id s = true ->
  value <> 0 ->
  out_of_range value = false ->
  exists s' response,
    create_single_entry_transaction user_id value s = (s', Return response)
    /\ status response = HTTP_201_CREATED.
Proof.
  intros Hu Hnz Hv.
  apply user_exists_find in Hu. destruct Hu as [u Hu].
  rewrite create_single_entry_eq, single_entry_block_eq, Hu, Hv.
  assert ((value =? 0) = false) as -> by now apply Z.eqb_neq.
  cbv zeta. eexists. eexists. split; reflexivity.
Qed.

(** C4: a double-entry creation between two distinct users that returns
    has added [value] to the balance of the source user and subtracted it
    from the balance of the destination user; leg 1 carries [value], leg 2
    its negation; the response is 201 with leg 1, which is the row stored
    under its key and whose [double_entry_id] is the key of leg 2. *)
Theorem double_entry_effect (s s' : Store) (src dst value : Z) (response : Response) :
  well_formed s ->
  src <> dst ->
  create_double_entry_transactions src dst value s = (s', Return response) ->
  exists src_account dst_account leg1 leg2,
    User_objects_get src s = (s, Return src_account)
    /\ User_objects_get dst s = (s, Return dst_account)
    /\ User_objects_get src s'
       = (s', Return (User.set_balance src_account (User.balance src_account + value)))
    /\ User_objects_get dst s'
       = (s', Return (User.set_balance dst_account (User.balance dst_account - value)))
    /\ transactions s' = transactions s ++ [leg1; leg2]
    /\ Transaction.user leg1 = src /\ Transaction.value leg1 = value
    /\ Transaction.user leg2 = dst /\ Transaction.value leg2 = - value
    /\ Transaction.double_entry_id leg2 = Some (Transaction.id leg1)
    /\ Transaction.double_entry_id leg1 = Some (Transaction.id leg2)
    /\ response = mkResponse (transaction_data leg1) HTTP_201_CREATED
    /\ Transaction_objects_filter_id (Transaction.id leg1) s' = (s', Return [leg1]).
Proof.
  intros [_ [Hlt _]] Hne Hrun.
  destruct (create_double_entry_return _ _ _ _ _ _ Hrun)
    as (src_account & dst_account & Hsrc & Hdst & _ & _ & _ & Heq).
  rewrite Heq in Hrun. cbv zeta in Hrun. rewrite (linked_rows s src dst value Hlt) in Hrun.
  injection Hrun as Hs' Hresp.
  destruct (find_user_some _ _ _ Hsrc) as [_ Hsid].
  destruct (find_user_some _ _ _ Hdst) as [_ Hdid].
  exists src_account, dst_account.
  eexists. eexists.
  unfold User_objects_get, Transaction_objects_filter_id.
  rewrite Hsrc, Hdst, <- Hs'. cbn [users transactions].
  repeat split; try reflexivity.
  - rewrite find_update_user_rows_other
      by (cbn [User.set_balance User.id]; congruence).
    rewrite find_update_user_rows_pk; [reflexivity | exact Hsid |].
    now apply find_user_exists in Hsrc.
  - rewrite <- Z.add_opp_r.
    rewrite find_update_user_rows_pk; [reflexivity | exact Hdid |].
    rewrite existsb_update_user_rows.
    now apply find_user_exists in Hdst.
  - now symmetry.
  - rewrite filter_app, filter_id_fresh.
    + cbn [filter Transaction.id app]. rewrite Z.eqb_refl.
      now assert ((next_transaction_id s + 1 =? next_transaction_id s) = false)
        as -> by (apply Z.eqb_neq; lia).
    + intros r Hr. apply Hlt in Hr. cbn [Transaction.id]. lia.
Qed.

Lemma single_entry_block_on_eq (db : WriteFailures) (s : Store) (user_id value : Z) :
  single_entry_block_on db user_id value s =
  match find (fun u => User.id u =? user_id) (users s) with
  | None => (s, Raise User_DoesNotExist)
  | Some user =>
      if value =? 0 then (s, Raise TransactionValueZero)
      else if out_of_range value then (s, Raise TransactionValueError)
      else
        match refuses_transaction db s (new_single_entry s user_id value) with
        | Some e => (s, Raise e)
        | None =>
            let inserted := with_transaction s (new_single_entry s user_id value) in
            let saved := User.set_balance user (User.balance user + value) in
            match refuses_user db inserted saved with
            | Some e => (inserted, Raise e)
            | None =>
                (mkStore (update_user_rows saved (users s))
                         (transactions s ++ [new_single_entry s user_id value])
                         (next_user_id s) (next_transaction_id s + 1),
                 Return (mkResponse
                           (transaction_data (new_single_entry s user_id value))
                           HTTP_201_CREATED))
            end
        end
  end.
Proof.
  unfold single_entry_block_on, bind, User_objects_get, is_valid, out_of_range.
  destruct (find _ (users s)) as [user|] eqn:Hfind; [|reflexivity].
  cbn [initial_user initial_value].
  rewrite (find_user_exists _ _ _ Hfind). cbn [negb].
  destruct (value =? 0); [reflexivity|].
  destruct ((value <? TRANSACTION_LOWER) || (TRANSACTION_UPPER <? value));
    [reflexivity|].
  unfold serializer_save_on, new_single_entry. cbn [initial_user initial_value].
  destruct (refuses_transaction db s _) as [e|]; [reflexivity|].
  unfold serializer_save, User_save_on, with_transaction.
  cbn [initial_user initial_value].
  destruct (refuses_user db _ _) as [e|]; [reflexivity|].
  destruct (find_user_some _ _ _ Hfind) as [_ Hid].
  unfold User_save, ret, transaction_to_dict.
  cbn [users transactions next_user_id next_transaction_id
       User.set_balance User.id].
  rewrite Hid, (find_user_exists _ _ _ Hfind). reflexivity.
Qed.

(** On the database that accepts every write, the operation is
    [create_single_entry_transaction] as the other sections have it. *)
Lemma create_single_entry_on_no_failures (s : Store) (user_id value : Z) :
  create_single_entry_transaction_on no_failures user_id value s
  = create_single_entry_transaction user_id value s.
Proof.
  unfold create_single_entry_transaction_on, create_single_entry_transaction.
  rewrite !atomic_eq, single_entry_block_on_eq, single_entry_block_eq.
  destruct (find _ (users s)); [|reflexivity].
  destruct (value =? 0); [reflexivity|].
  destruct (out_of_range value); reflexivity.
Qed.

(** C6: a single-entry creation for an existing user with a value that is
    not zero and within the boundaries, on a database that accepts both
    writes, returns 201 with the created record; exactly one row, owned by
    the user, carrying the value and no [double_entry_id], is appended; the
    balance of that user is incremented by the value and no other user row
    changes. The row and the balance update persist together or not at all,
    whatever the database refuses: when it refuses the balance update after
    it has taken the row, the block alone would leave the row behind, and
    the operation, which runs the block under [transaction.atomic()], ends
    in the store it started from; and for every input and every database
    the operation either returns with the row and the balance both written
    or raises with the store untouched. On the database that refuses
    nothing the operation is [create_single_entry_transaction]. *)
Theorem single_entry_effect (db : WriteFailures) (s : Store) (user_id value : Z)
    (user : User.t) :
  User_objects_get user_id s = (s, Return user) ->
  value <> 0 ->
  out_of_range value = false ->
  (refuses_transaction db s (new_single_entry s user_id value) = None ->
   refuses_user db (with_transaction s (new_single_entry s user_id value))
     (User.set_balance user (User.balance user + value)) = None ->
   exists s',
     create_single_entry_transaction_on db user_id value s
     = (s', Return (mkResponse (transaction_data (new_single_entry s user_id value))
                               HTTP_201_CREATED))
     /\ transactions s' = transactions s ++ [new_single_entry s user_id value]
     /\ User_objects_get user_id s'
        = (s', Return (User.set_balance user (User.balance user + value)))
     /\ (forall pk, pk <> user_id ->
         User_objects_get pk s' = (s', snd (User_objects_get pk s))))
  /\ (forall e,
        refuses_transaction db s (new_single_entry s user_id value) = None ->
        refuses_user db (with_transaction s (new_single_entry s user_id value))
          (User.set_balance user (User.balance user + value)) = Some e ->
        single_entry_block_on db user_id value s
        = (with_transaction s (new_single_entry s user_id value), Raise e)
        /\ create_single_entry_transaction_on db user_id value s = (s, Raise e))
  /\ (forall any_db any_user any_value s1 r,
        create_single_entry_transaction_on any_db any_user any_value s = (s1, r) ->
        (exists e, r = Raise e /\ s1 = s)
        \/ (exists u x,
              r = Return (mkResponse (transaction_data x) HTTP_201_CREATED)
              /\ User_objects_get any_user s = (s, Return u)
              /\ transactions s1 = transactions s ++ [x]
              /\ User_objects_get any_user s1
                 = (s1, Return (User.set_balance u (User.balance u + any_value)))))
  /\ create_single_entry_transaction_on no_failures user_id value s
     = create_single_entry_transaction user_id value s.
Proof.
  intros Hget Hnz Hrange.
  assert (forall uid v u,
            find (fun r => User.id r =? uid) (users s) = Some u ->
            find (fun r => User.id r =? uid)
                 (update_user_rows (User.set_balance u (User.balance u + v)) (users s))
            = Some (User.set_balance u (User.balance u + v))) as Hupd.
  { intros uid v u Hu. apply find_update_user_rows_pk.
    - now destruct (find_user_some _ _ _ Hu).
    - now apply find_user_exists in Hu. }
  apply User_objects_get_eq in Hget. destruct Hget as [_ Hget].
  destruct (find (fun u => User.id u =? user_id) (users s)) as [u|] eqn:Hfind;
    [|discriminate].
  injection Hget as ->.
  assert ((value =? 0) = false) as Hz by now apply Z.eqb_neq.
  split; [|split; [|split]].
  - intros Hrow Hbalance. eexists.
    unfold create_single_entry_transaction_on.
    rewrite atomic_eq, single_entry_block_on_eq, Hfind, Hz, Hrange, Hrow.
    cbv zeta. rewrite Hbalance. cbn [snd fst].
    split; [reflexivity|]. split; [reflexivity|].
    unfold User_objects_get. cbn [users]. split.
    + now rewrite (Hupd _ _ _ Hfind).
    + intros pk Hpk. rewrite find_update_user_rows_other.
      * now destruct (find (fun u => User.id u =? pk) (users s)).
      * cbn [User.set_balance User.id].
        destruct (find_user_some _ _ _ Hfind) as [_ Hid]. congruence.
  - intros e Hrow Hbalance. unfold create_single_entry_transaction_on.
    rewrite atomic_eq, single_entry_block_on_eq, Hfind, Hz, Hrange, Hrow.
    cbv zeta. rewrite Hbalance. now split.
  - intros any_db uid v s1 r. unfold create_single_entry_transaction_on.
    rewrite atomic_eq, single_entry_block_on_eq. unfold User_objects_get.
    destruct (find (fun u => User.id u =? uid) (users s)) as [a|] eqn:Ha.
    2:{ intros H. injection H as <- <-. left. now eexists. }
    destruct (v =? 0). { intros H. injection H as <- <-. left. now eexists. }
    destruct (out_of_range v). { intros H. injection H as <- <-. left. now eexists. }
    destruct (refuses_transaction any_db s _) as [e|].
    { intros H. injection H as <- <-. left. now eexists. }
    cbv zeta. destruct (refuses_user any_db _ _) as [e|].
    { cbn [snd fst]. intros H. injection H as <- <-. left. now eexists. }
    cbn [snd fst]. intros H. injection H as <- <-. right.
    eexists. eexists. split; [reflexivity|]. split; [reflexivity|].
    split; [reflexivity|]. cbn [users]. now rewrite (Hupd _ _ _ Ha).
  - apply create_single_entry_on_no_failures.
Qed.

(** ** The shape of the store after each operation *)

Lemma create_single_entry_shape (s s' : Store) (user_id value : Z) (r : Response) :
  create_single_entry_transaction user_id value s = (s', Return r) ->
  exists u,
    In u (users s) /\ User.id u = user_id
    /\ s' = mkStore
              (update_user_rows (User.set_balance u (User.balance u + value)) (users s))
              (transactions s
               ++ [Transaction.mk (next_transaction_id s) user_id value None])
              (next_user_id s) (next_transaction_id s + 1).
Proof.
  rewrite create_single_entry_eq, single_entry_block_eq.
  destruct (find (fun u => User.id u =? user_id) (users s)) as [u|] eqn:Hfind;
    [|discriminate].
  destruct (value =? 0); [discriminate|].
  destruct (out_of_range value); [discriminate|].
  cbv zeta. intros H. injection H as <- _.
  destruct (find_user_some _ _ _ Hfind). now exists u.
Qed.

Lemma create_double_entry_shape (s s' : Store) (src dst value : Z) (r : Response) :
  (forall x, In x (transactions s) -> Transaction.id x < next_transaction_id s) ->
  create_double_entry_transactions src dst value s = (s', Return r) ->
  exists src_account dst_account,
    In src_account (users s) /\ User.id src_account = src
    /\ In dst_account (users s) /\ User.id dst_account = dst
    /\ find (fun u => User.id u =? src) (users s) = Some src_account
    /\ find (fun u => User.id u =? dst) (users s) = Some dst_account
    /\ s' = mkStore
              (update_user_rows
                 (User.set_balance dst_account (User.balance dst_account + - value))
                 (update_user_rows
                    (User.set_balance src_account (User.balance src_account + value))
                    (users s)))
              (transactions s
               ++ [Transaction.mk (next_transaction_id s) src value
                                  (Some (next_transaction_id s + 1));
                   Transaction.mk (next_transaction_id s + 1) dst (- value)
                                  (Some (next_transaction_id s))])
              (next_user_id s) (next_transaction_id s + 1 + 1).
Proof.
  intros Hlt Hrun.
  destruct (create_double_entry_return _ _ _ _ _ _ Hrun)
    as (src_account & dst_account & Hsrc & Hdst & _ & _ & _ & Heq).
  rewrite Heq in Hrun. cbv zeta in Hrun.
  rewrite (linked_rows s src dst value Hlt) in Hrun.
  injection Hrun as <- _.
  destruct (find_user_some _ _ _ Hsrc) as [? ?].
  destruct (find_user_some _ _ _ Hdst) as [? ?].
  exists src_account, dst_account. repeat split; assumption.
Qed.

Lemma register_shape (s s' : Store) (name : string) (mail_address : option string)
    (r : Response) :
  perform (register name mail_address) s = (s', Return r) ->
  s' = s
  \/ s' = mkStore (users s ++ [User.mk (next_user_id s) name mail_address 0 true])
                  (transactions s) (next_user_id s + 1) (next_transaction_id s).
Proof.
  cbn [perform]. unfold UserViewSet_create. cbn [data_name data_mail_address].
  unfold try_except, bind, User_create, ret.
  destruct (existsb _ (users s)).
  - intros H. injection H as <- _. now left.
  - intros H. injection H as <- _. now right.
Qed.

(** ** Reconciliation *)

Lemma sum_values_app (a b : list Transaction.t) :
  sum_values (a ++ b) = sum_values a + sum_values b.
Proof.
  unfold sum_values. rewrite map_app, fold_right_app.
  induction (map Transaction.value a) as [|x l IH]; cbn [fold_right]; lia.
Qed.

Lemma calc_balance_app (user_id : Z) (s s' : Store) (extra : list Transaction.t) :
  transactions s' = transactions s ++ extra ->
  calc_balance user_id s'
  = calc_balance user_id s
    + sum_values (filter (fun x => Transaction.user x =? user_id) extra).
Proof.
  intros H. unfold calc_balance. now rewrite H, filter_app, sum_values_app.
Qed.

Lemma reconciled_forall (s : Store) :
  reconciled s <->
  forall u, In u (users s) -> User.balance u = calc_balance (User.id u) s.
Proof.
  unfold reconciled, balances_match. rewrite forallb_forall.
  split; intros H u Hu; specialize (H u Hu); now apply Z.eqb_eq.
Qed.

(** ** Well-formedness is kept by every operation *)

Lemma NoDup_ids_append (rows extra : list Transaction.t) (n : Z) :
  NoDup (map Transaction.id rows) ->
  (forall x, In x rows -> Transaction.id x < n) ->
  NoDup (map Transaction.id extra) ->
  (forall x, In x extra -> n <= Transaction.id x) ->
  NoDup (map Transaction.id (rows ++ extra)).
Proof.
  intros Hrows Hlt Hextra Hge. rewrite map_app.
  apply NoDup_app; trivial.
  intros a Ha Ha'. apply in_map_iff in Ha, Ha'.
  destruct Ha as [x [<- Hx]]. destruct Ha' as [y [Hy Hy']].
  apply Hlt in Hx. apply Hge in Hy'. lia.
Qed.

Lemma well_formed_empty : well_formed empty_store.
Proof.
  repeat split; cbn; try constructor; contradiction.
Qed.

Lemma well_formed_perform (s s' : Store) (op : Operation) (r : Response) :
  well_formed s ->
  perform op s = (s', Return r) ->
  well_formed s'.
Proof.
  intros (Hnd & Hlt & Hfk & Hpk) Hrun. destruct op as [name mail|uid v|src dst v].
  - apply register_shape in Hrun. destruct Hrun as [->| ->].
    + now repeat split.
    + unfold well_formed. cbn [users transactions next_user_id next_transaction_id].
      repeat split; trivial.
      * intros x Hx. apply Hfk in Hx. lia.
      * intros u Hu. apply in_app_iff in Hu. destruct Hu as [Hu|[<-|[]]].
        -- apply Hpk in Hu. lia.
        -- cbn. lia.
  - cbn [perform] in Hrun. apply create_single_entry_shape in Hrun.
    destruct Hrun as (u & Hu & Hid & ->).
    unfold well_formed. cbn [users transactions next_user_id next_transaction_id].
    repeat split.
    + apply (NoDup_ids_append _ _ (next_transaction_id s)); trivial.
      * cbn. constructor; [intros []|constructor].
      * intros x [<-|[]]. cbn. lia.
    + intros x Hx. apply in_app_iff in Hx. destruct Hx as [Hx|[<-|[]]].
      * apply Hlt in Hx. lia.
      * cbn. lia.
    + intros x Hx. apply in_app_iff in Hx. destruct Hx as [Hx|[<-|[]]].
      * now apply Hfk.
      * cbn. rewrite <- Hid. now apply Hpk.
    + intros y Hy. apply in_update_user_rows in Hy.
      destruct Hy as [[-> _]|[Hy _]]; [|now apply Hpk].
      cbn. now apply Hpk.
  - cbn [perform] in Hrun. apply create_double_entry_shape in Hrun; trivial.
    destruct Hrun as (a & d & Ha & Haid & Hd & Hdid & _ & _ & ->).
    unfold well_formed. cbn [users transactions next_user_id next_transaction_id].
    repeat split.
    + apply (NoDup_ids_append _ _ (next_transaction_id s)); trivial.
      * cbn. constructor; [|constructor; [intros []|constructor]].
        intros [H|[]]. lia.
      * intros x [<-|[<-|[]]]; cbn; lia.
    + intros x Hx. apply in_app_iff in Hx. destruct Hx as [Hx|[<-|[<-|[]]]].
      * apply Hlt in Hx. lia.
      * cbn. lia.
      * cbn. lia.
    + intros x Hx. apply in_app_iff in Hx. destruct Hx as [Hx|[<-|[<-|[]]]].
      * now apply Hfk.
      * cbn. rewrite <- Haid. now apply Hpk.
      * cbn. rewrite <- Hdid. now apply Hpk.
    + intros y Hy. apply in_update_user_rows in Hy.
      destruct Hy as [[-> _]|[Hy _]]; [cbn; now apply Hpk|].
      apply in_update_user_rows in Hy.
      destruct Hy as [[-> _]|[Hy _]]; [cbn; now apply Hpk|].
      now apply Hpk.
Qed.

Lemma well_formed_replay (ops : list Operation) (s s' : Store) :
  well_formed s -> replay ops s = Some s' -> well_formed s'.
Proof.
  revert s. induction ops as [|op ops IH]; intros s Hwf; cbn [replay].
  - intros H. now injection H as <-.
  - destruct (perform op s) as [s1 [r|e]] eqn:Hop; [|discriminate].
    apply IH. now apply (well_formed_perform s s1 op r).
Qed.

(** Reconciliation is kept by registering a user, by a single entry and by
    a double entry between two distinct users. *)
Lemma reconciled_perform (s s' : Store) (op : Operation) (r : Response) :
  well_formed s ->
  distinct_accounts op ->
  reconciled s ->
  perform op s = (s', Return r) ->
  reconciled s'.
Proof.
  intros (Hnd & Hlt & Hfk & Hpk) Hdist Hrec Hrun.
  rewrite reconciled_forall in Hrec |- *.
  destruct op as [name mail|uid v|src dst v].
  - apply register_shape in Hrun. destruct Hrun as [->| ->]; [exact Hrec|].
    cbn [users]. intros u Hu.
    rewrite (calc_balance_app _ s _ []) by (cbn; now rewrite app_nil_r).
    cbn [filter]. change (sum_values []) with 0.
    apply in_app_iff in Hu. destruct Hu as [Hu|[<-|[]]].
    + rewrite (Hrec u Hu). lia.
    + cbn [User.balance User.id]. unfold calc_balance.
      rewrite filter_none; [reflexivity|].
      intros x Hx. apply Hfk in Hx. apply Z.eqb_neq. lia.
  - cbn [perform] in Hrun. apply create_single_entry_shape in Hrun.
    destruct Hrun as (u & Hu & Hid & ->). cbn [users]. intros y Hy.
    rewrite (calc_balance_app _ s _ [Transaction.mk (next_transaction_id s) uid v None])
      by reflexivity.
    cbn [filter Transaction.user]. apply in_update_user_rows in Hy.
    destruct Hy as [[-> _]|[Hy Hne]].
    + cbn [User.set_balance User.id User.balance]. rewrite Hid, Z.eqb_refl.
      rewrite (Hrec u Hu), Hid. unfold sum_values. cbn. lia.
    + cbn [User.set_balance User.id] in Hne.
      assert ((uid =? User.id y) = false) as -> by (apply Z.eqb_neq; congruence).
      rewrite (Hrec y Hy). change (sum_values []) with 0. lia.
  - cbn [perform] in Hrun. apply create_double_entry_shape in Hrun; trivial.
    destruct Hrun as (a & d & Ha & Haid & Hd & Hdid & _ & _ & ->).
    cbn [distinct_accounts] in Hdist. cbn [users]. intros y Hy.
    rewrite (calc_balance_app _ s _
               [Transaction.mk (next_transaction_id s) src v
                               (Some (next_transaction_id s + 1));
                Transaction.mk (next_transaction_id s + 1) dst (- v)
                               (Some (next_transaction_id s))])
      by reflexivity.
    cbn [filter Transaction.user]. apply in_update_user_rows in Hy.
    destruct Hy as [[-> _]|[Hy Hne]].
    + cbn [User.set_balance User.id User.balance]. rewrite Hdid, Z.eqb_refl.
      assert ((src =? dst) = false) as -> by now apply Z.eqb_neq.
      rewrite (Hrec d Hd), Hdid. unfold sum_values. cbn. lia.
    + cbn [User.set_balance User.id] in Hne. apply in_update_user_rows in Hy.
      assert ((dst =? User.id y) = false) as -> by (apply Z.eqb_neq; congruence).
      destruct Hy as [[-> _]|[Hy Hne']].
      * cbn [User.set_balance User.id User.balance]. rewrite Haid, Z.eqb_refl.
        rewrite (Hrec a Ha), Haid. unfold sum_values. cbn. lia.
      * cbn [User.set_balance User.id] in Hne'.
        assert ((src =? User.id y) = false) as -> by (apply Z.eqb_neq; congruence).
        rewrite (Hrec y Hy). change (sum_values []) with 0. lia.
Qed.

(** X1: from a well-formed store whose balances are reconciled, every
    history of registrations, single entries and double entries between two
    distinct users, all of which returned, ends in a store whose balances
    are reconciled. *)
Theorem reconciled_replay (ops : list Operation) (s s' : Store) :
  well_formed s ->
  Forall distinct_accounts ops ->
  reconciled s ->
  replay ops s = Some s' ->
  reconciled s'.
Proof.
  revert s. induction ops as [|op ops IH]; intros s Hwf Hall Hrec; cbn [replay].
  - intros H. now injection H as <-.
  - destruct (perform op s) as [s1 [r|e]] eqn:Hop; [|discriminate].
    inversion Hall as [|? ? Hop_distinct Hrest]; subst.
    apply IH; trivial.
    + now apply (well_formed_perform s s1 op r).
    + now apply (reconciled_perform s s1 op r).
Qed.

(** ** The pairing of the two legs *)

Ltac old_row H :=
  destruct H as (D & HD & Hid & Hval & Hback);
  exists D; repeat split; trivial; apply in_app_iff; now left.

Lemma links_perform (s s' : Store) (op : Operation) (r : Response) :
  well_formed s ->
  double_entry_links s ->
  perform op s = (s', Return r) ->
  double_entry_links s'.
Proof.
  intros (Hnd & Hlt & Hfk & Hpk) Hinv Hrun.
  destruct op as [name mail|uid v|src dst v].
  - apply register_shape in Hrun. destruct Hrun as [->| ->]; exact Hinv.
  - cbn [perform] in Hrun. apply create_single_entry_shape in Hrun.
    destruct Hrun as (u & _ & _ & ->). intros T d HT Hd. cbn [transactions] in *.
    apply in_app_iff in HT. destruct HT as [HT|[<-|[]]]; [|discriminate].
    specialize (Hinv T d HT Hd). old_row Hinv.
  - cbn [perform] in Hrun. apply create_double_entry_shape in Hrun; trivial.
    destruct Hrun as (a & d0 & _ & _ & _ & _ & _ & _ & ->).
    intros T d HT Hd. cbn [transactions] in *.
    apply in_app_iff in HT. destruct HT as [HT|[<-|[<-|[]]]].
    + specialize (Hinv T d HT Hd). old_row Hinv.
    + cbn in Hd. injection Hd as <-. eexists. split.
      * apply in_app_iff. right. right. left. reflexivity.
      * cbn. repeat split; reflexivity.
    + cbn in Hd. injection Hd as <-. eexists. split.
      * apply in_app_iff. right. left. reflexivity.
      * cbn. repeat split; f_equal; lia.
Qed.

Lemma invariant_perform (s s' : Store) (op : Operation) (r : Response) :
  well_formed s ->
  distinct_accounts op ->
  double_entry_invariant s ->
  perform op s = (s', Return r) ->
  double_entry_invariant s'.
Proof.
  intros (Hnd & Hlt & Hfk & Hpk) Hdist Hinv Hrun.
  destruct op as [name mail|uid v|src dst v].
  - apply register_shape in Hrun. destruct Hrun as [->| ->]; exact Hinv.
  - cbn [perform] in Hrun. apply create_single_entry_shape in Hrun.
    destruct Hrun as (u & _ & _ & ->). intros T d HT Hd. cbn [transactions] in *.
    apply in_app_iff in HT. destruct HT as [HT|[<-|[]]]; [|discriminate].
    specialize (Hinv T d HT Hd).
    destruct Hinv as (D & HD & Hid & Hval & Hback & Huser).
    exists D; repeat split; trivial; apply in_app_iff; now left.
  - cbn [perform] in Hrun. apply create_double_entry_shape in Hrun; trivial.
    destruct Hrun as (a & d0 & _ & _ & _ & _ & _ & _ & ->).
    cbn [distinct_accounts] in Hdist.
    intros T d HT Hd. cbn [transactions] in *.
    apply in_app_iff in HT. destruct HT as [HT|[<-|[<-|[]]]].
    + specialize (Hinv T d HT Hd).
      destruct Hinv as (D & HD & Hid & Hval & Hback & Huser).
      exists D; repeat split; trivial; apply in_app_iff; now left.
    + cbn in Hd. injection Hd as <-. eexists. split.
      * apply in_app_iff. right. right. left. reflexivity.
      * cbn. repeat split; try reflexivity. congruence.
    + cbn in Hd. injection Hd as <-. eexists. split.
      * apply in_app_iff. right. left. reflexivity.
      * cbn. repeat split; try (f_equal; lia).
Qed.

(** C3: after every history of operations that returned, started
    in a well-formed store that has the property, every transaction T whose
    [double_entry_id] is D has a stored partner with key D, of the negated
    value, whose [double_entry_id] is the key of T; the partner belongs to
    another user than T when every double entry of the history named two
    distinct accounts; and the row a single entry creates has no
    [double_entry_id]. Transaction keys stay unique, so the partner is the
    only row with key D. *)
Theorem double_entry_pairing (ops : list Operation) (s s' : Store) :
  well_formed s ->
  replay ops s = Some s' ->
  well_formed s'
  /\ (double_entry_links s -> double_entry_links s')
  /\ (Forall distinct_accounts ops ->
      double_entry_invariant s -> double_entry_invariant s')
  /\ (forall user_id value s'' response,
        create_single_entry_transaction user_id value s' = (s'', Return response) ->
        exists x,
          transactions s'' = transactions s' ++ [x]
          /\ response = mkResponse (transaction_data x) HTTP_201_CREATED
          /\ Transaction.double_entry_id x = None).
Proof.
  intros Hwf Hrun. split; [now apply (well_formed_replay ops s)|].
  split; [|split].
  - revert s Hwf Hrun. induction ops as [|op ops IH]; intros s Hwf; cbn [replay].
    + intros H. now injection H as <-.
    + destruct (perform op s) as [s1 [r|e]] eqn:Hop; [|discriminate].
      intros Hrun Hinv. apply (IH s1); trivial.
      * now apply (well_formed_perform s s1 op r).
      * now apply (links_perform s s1 op r).
  - revert s Hwf Hrun. induction ops as [|op ops IH]; intros s Hwf; cbn [replay].
    + intros H. now injection H as <-.
    + destruct (perform op s) as [s1 [r|e]] eqn:Hop; [|discriminate].
      intros Hrun Hall Hinv. inversion Hall as [|? ? Hd Hrest]; subst.
      apply (IH s1); trivial.
      * now apply (well_formed_perform s s1 op r).
      * now apply (invariant_perform s s1 op r).
  - intros uid v s'' response.
    rewrite create_single_entry_eq, single_entry_block_eq.
    destruct (find _ (users s')); [|discriminate].
    destruct (v =? 0); [discriminate|].
    destruct (out_of_range v); [discriminate|].
    cbv zeta. intros H. injection H as <- <-.
    eexists. repeat split.
Qed.

(** ** The status of a creation request *)

Lemma in_update_transaction_rows_self (x y : Transaction.t) (rows : list Transaction.t) :
  In y rows -> Transaction.id y = Transaction.id x ->
  In x (update_transaction_rows x rows).
Proof.
  intros Hy Hid. unfold update_transaction_rows. apply in_map_iff.
  exists y. split; [|exact Hy]. now rewrite Hid, Z.eqb_refl.
Qed.

(** C7: a request without a value is answered 400. Otherwise the
    users are looked up before the value is validated: when the user of the
    path or, with [dst] present, the destination user does not exist, the
    lookup raises [User.DoesNotExist], which is answered 404 if the
    [except UserNotFound] clause covers that exception and leaves the view
    unanswered if not; otherwise a value of zero is answered 400; otherwise
    a value outside the boundaries, or with [dst] present a value whose
    negation is outside them, is answered 403; otherwise the answer is 201
    with the created transaction, which is stored, belongs to the user of
    the path, carries the value, and has a [double_entry_id] exactly when
    [dst] is present. Every answer other than 201 leaves the store as it
    was. *)
Theorem create_status_in_code_order (s : Store) (request : Request) (user_pk : Z) :
  status_of (snd (UserTransactionViewSet_create request user_pk s))
  = outcome_in_code_order request user_pk s
  /\ match UserTransactionViewSet_create request user_pk s with
     | (s', Return response) =>
         if status response =? 201
         then exists x,
             data response = transaction_data x
             /\ In x (transactions s')
             /\ Transaction.user x = user_pk
             /\ data_value request = Some (Transaction.value x)
             /\ (Transaction.double_entry_id x = None <-> data_dst request = None)
         else s' = s
     | (s', Raise _) => s' = s
     end.
Proof.
  unfold UserTransactionViewSet_create, outcome_in_code_order,
    referenced_users_exist, user_exists.
  destruct (data_value request) as [value|]; [|now split].
  destruct (data_dst request) as [dst|]; unfold try_except.
  - rewrite create_double_entry_eq, double_entry_block_eq.
    destruct (find (fun u => User.id u =? dst) (users s)) as [d|] eqn:Hdst.
    2:{ apply find_user_none in Hdst. rewrite Hdst, andb_false_r.
        unfold create_except. cbn [isinstance_UserNotFound negb].
        destruct UserNotFound_covers_DoesNotExist; now split. }
    destruct (find (fun u => User.id u =? user_pk) (users s)) as [a|] eqn:Hsrc.
    2:{ apply find_user_none in Hsrc. rewrite Hsrc.
        unfold create_except. cbn [isinstance_UserNotFound negb andb].
        destruct UserNotFound_covers_DoesNotExist; now split. }
    rewrite (find_user_exists _ _ _ Hdst), (find_user_exists _ _ _ Hsrc).
    cbn [andb negb].
    destruct (value =? 0); [now split|].
    destruct (out_of_range value || out_of_range (- value)); [now split|].
    cbv zeta. cbn [snd status_of status]. split; [reflexivity|].
    cbn [status HTTP_201_CREATED Z.eqb Pos.eqb data transactions].
    eexists. split; [reflexivity|]. split.
    + apply (in_update_transaction_rows_self _
               (Transaction.mk (next_transaction_id s) user_pk value None));
        [|reflexivity].
      apply in_app_iff. right. now left.
    + cbn. repeat split; discriminate.
  - rewrite create_single_entry_eq, single_entry_block_eq.
    destruct (find (fun u => User.id u =? user_pk) (users s)) as [a|] eqn:Hsrc.
    2:{ apply find_user_none in Hsrc. rewrite Hsrc.
        unfold create_except. cbn [isinstance_UserNotFound negb andb].
        destruct UserNotFound_covers_DoesNotExist; now split. }
    rewrite (find_user_exists _ _ _ Hsrc). cbn [andb negb].
    destruct (value =? 0); [now split|].
    rewrite orb_false_r.
    destruct (out_of_range value); [now split|].
    cbv zeta. cbn [snd status_of status]. split; [reflexivity|].
    cbn [status HTTP_201_CREATED Z.eqb Pos.eqb data transactions].
    eexists. split; [reflexivity|]. split.
    + apply in_app_iff. right. now left.
    + cbn. repeat split.
Qed.

(** ** Listing and retrieving *)

Lemma get_limit_eq (request : Request) :
  get_limit 250 100 request = limit_of request.
Proof.
  unfold get_limit, limit_of, _positive_int.
  destruct (query_limit request) as [| |n]; try reflexivity.
  cbn [Z.eqb]. rewrite andb_true_r.
  destruct (Z.ltb_spec n 0), (Z.eqb_spec n 0), (Z.leb_spec 1 n);
    cbn [orb]; try reflexivity; lia.
Qed.

Lemma get_offset_eq (request : Request) :
  get_offset request = offset_of request.
Proof.
  unfold get_offset, offset_of, _positive_int.
  destruct (query_offset request) as [| |n]; try reflexivity.
  rewrite andb_false_r, orb_false_r.
  destruct (Z.ltb_spec n 0), (Z.leb_spec 0 n); try reflexivity; lia.
Qed.

Lemma limit_of_bounds (request : Request) : 1 <= limit_of request <= 250.
Proof.
  unfold limit_of. destruct (query_limit request) as [| |n]; try lia.
  destruct (Z.leb_spec 1 n); lia.
Qed.

Lemma offset_of_nonneg (request : Request) : 0 <= offset_of request.
Proof.
  unfold offset_of. destruct (query_offset request) as [| |n]; try lia.
  destruct (Z.leb_spec 0 n); lia.
Qed.

Lemma paginate_queryset_paginated {A B} (f : A -> B) (rows : list A)
    (request : Request) :
  paginated f rows request (map_page f (paginate_queryset 250 100 rows request)).
Proof.
  unfold paginated, map_page, paginate_queryset.
  cbn [entries limit offset overall_count].
  rewrite get_limit_eq, get_offset_eq.
  pose proof (limit_of_bounds request) as Hl.
  pose proof (offset_of_nonneg request) as Ho.
  assert ((if (Z.of_nat (List.length rows) =? 0)
              || (Z.of_nat (List.length rows) <? offset_of request)
           then [] else slice rows (offset_of request) (limit_of request))
          = slice rows (offset_of request) (limit_of request)) as ->.
  { destruct (Z.eqb_spec (Z.of_nat (List.length rows)) 0) as [H0|H0]; cbn [orb].
    - destruct rows; [|discriminate]. unfold slice.
      now rewrite skipn_nil, firstn_nil.
    - destruct (Z.ltb_spec (Z.of_nat (List.length rows)) (offset_of request));
        [|reflexivity].
      unfold slice. rewrite skipn_all2 by lia. now rewrite firstn_nil. }
  repeat split; try lia.
  rewrite length_map. unfold slice.
  pose proof (firstn_le_length (Z.to_nat (limit_of request))
                (skipn (Z.to_nat (offset_of request)) rows)).
  lia.
Qed.

Lemma UserViewSet_list_eq (s : Store) (request : Request) :
  UserViewSet_list request s
  = (s, Return (mkResponse
                  (user_page (map_page to_dict
                                (paginate_queryset 250 100
                                   (filter User.active (users s)) request)))
                  HTTP_200_OK)).
Proof.
  reflexivity.
Qed.

(** C9: each of the three list views answers 200 with a body of entries,
    limit, offset and overall_count, where overall_count is the number of
    all matching rows (the active users, the transactions of the user, all
    transactions), the limit is the one asked for cut at 250 and is 100 when
    none is given, and the entries are the window of the matching rows at
    that offset and of at most that many rows. The per-user list does so
    for a user that exists and answers 404 for one that does not. *)
Theorem list_views_paginate (s : Store) (request : Request) (user_pk : Z) :
  (exists p,
     UserViewSet_list request s = (s, Return (mkResponse (user_page p) HTTP_200_OK))
     /\ paginated to_dict (filter User.active (users s)) request p)
  /\ (exists p,
        TransactionViewSet_list request s
        = (s, Return (mkResponse (transaction_page p) HTTP_200_OK))
        /\ paginated transaction_to_dict (transactions s) request p)
  /\ match find (fun u => User.id u =? user_pk) (users s) with
     | Some user =>
         exists p,
           UserTransactionViewSet_list request user_pk s
           = (s, Return (mkResponse (transaction_page p) HTTP_200_OK))
           /\ paginated transaction_to_dict
                (filter (fun x => Transaction.user x =? user_pk) (transactions s))
                request p
     | None =>
         UserTransactionViewSet_list request user_pk s
         = (s, Return (mkResponse (msg (user_not_found user_pk)) HTTP_404_NOT_FOUND))
     end.
Proof.
  split; [|split].
  - eexists. split; [apply UserViewSet_list_eq|].
    apply paginate_queryset_paginated.
  - eexists. split; [|apply paginate_queryset_paginated].
    unfold TransactionViewSet_list, bind, Transaction_objects_all, ret. reflexivity.
  - unfold UserTransactionViewSet_list, try_except, bind, User_objects_get.
    destruct (find (fun u => User.id u =? user_pk) (users s)) as [user|] eqn:Hfind;
      [|reflexivity].
    eexists. split; [reflexivity|].
    destruct (find_user_some _ _ _ Hfind) as [_ <-].
    apply paginate_queryset_paginated.
Qed.

Lemma in_slice {A} (x : A) (rows : list A) (offset limit : Z) :
  In x (slice rows offset limit) -> In x rows.
Proof.
  unfold slice. intros H.
  rewrite <- (firstn_skipn (Z.to_nat offset) rows). apply in_or_app. right.
  rewrite <- (firstn_skipn (Z.to_nat limit) (skipn (Z.to_nat offset) rows)).
  apply in_or_app. now left.
Qed.

(** C10: a user that exists is retrieved by id with the full record and
    status 200 whatever the active flag says, while every entry of the user
    list is the summary of a stored user whose active flag is set, the list
    being a window of the active users only. *)
Theorem retrieve_ignores_active (s : Store) (request : Request) (pk : Z)
    (user : User.t) :
  User_objects_get pk s = (s, Return user) ->
  UserViewSet_retrieve request pk s
  = (s, Return (mkResponse (user_data (to_full_dict user)) HTTP_200_OK))
  /\ exists p,
       UserViewSet_list request s
       = (s, Return (mkResponse (user_page p) HTTP_200_OK))
       /\ entries p
          = map to_dict (slice (filter User.active (users s)) (offset p) (limit p))
       /\ Forall (fun e => exists u,
                      In u (users s) /\ User.active u = true /\ e = to_dict u)
                 (entries p).
Proof.
  intros Hget. split.
  - unfold UserViewSet_retrieve, try_except, bind. now rewrite Hget.
  - eexists. split; [apply UserViewSet_list_eq|].
    destruct (paginate_queryset_paginated to_dict (filter User.active (users s))
                request) as (_ & _ & _ & Hentries & _).
    split; [exact Hentries|].
    rewrite Hentries. apply Forall_forall. intros e He.
    apply in_map_iff in He. destruct He as [u [<- Hu]].
    apply in_slice in Hu.
    apply filter_In in Hu. now exists u.
Qed.

Lemma filter_unique_id (g : Transaction.t -> bool) (pk : Z)
    (rows : list Transaction.t) :
  NoDup (map Transaction.id rows) ->
  filter (fun x => g x && (Transaction.id x =? pk)) rows
  = match find (fun x => g x && (Transaction.id x =? pk)) rows with
    | Some x => [x]
    | None => []
    end.
Proof.
  induction rows as [|r rows IH]; cbn [map filter find]; [reflexivity|].
  intros Hnd. inversion Hnd as [|? ? Hnotin Hrest]; subst.
  destruct (g r && (Transaction.id r =? pk)) eqn:E; [|now apply IH].
  apply andb_true_iff in E. destruct E as [_ E]. apply Z.eqb_eq in E.
  f_equal. apply filter_none. intros x Hx.
  apply andb_false_iff. right. apply Z.eqb_neq. intros Heq.
  apply Hnotin. apply in_map_iff. exists x. split; [congruence | exact Hx].
Qed.

(** X2: what [UserTransactionViewSet.retrieve] does on a well-formed store,
    case by case: for a user that exists, 200 with the record when a
    transaction of that key belongs to the user and 404 when none does; the
    lookup of the user is not guarded, so a missing user is an exception and
    not an answer. *)
Theorem UserTransactionViewSet_retrieve_eq (s : Store) (request : Request)
    (pk user_pk : Z) :
  well_formed s ->
  UserTransactionViewSet_retrieve request pk user_pk s =
  match find (fun u => User.id u =? user_pk) (users s) with
  | None => (s, Raise User_DoesNotExist)
  | Some _ =>
      match find (fun x => (Transaction.user x =? user_pk)
                           && (Transaction.id x =? pk)) (transactions s) with
      | Some x => (s, Return (mkResponse (transaction_data x) HTTP_200_OK))
      | None => (s, Return (mkResponse (msg transaction_not_found) HTTP_404_NOT_FOUND))
      end
  end.
Proof.
  intros (Hnd & _).
  unfold UserTransactionViewSet_retrieve, bind, User_objects_get,
    Transaction_objects_filter_user_id.
  destruct (find (fun u => User.id u =? user_pk) (users s)) as [user|] eqn:Hfind;
    [|reflexivity].
  destruct (find_user_some _ _ _ Hfind) as [_ ->].
  rewrite (filter_unique_id (fun x => Transaction.user x =? user_pk) pk _ Hnd).
  now destruct (find _ (transactions s)).
Qed.

(** C5: what the code does with a double entry whose two accounts are one
    and the same user. The request is accepted with 201 and both legs are
    stored for that user, so the sum of the values of their transactions
    does not move; but the balance that ends up stored is the one of the
    instance saved last, the destination instance, which never saw the
    update of the source instance: the balance read at the start minus the
    value, where section 4.2 has the two updates cancel. *)
Theorem self_transfer_effect (s s' : Store) (user_id value : Z) (response : Response) :
  well_formed s ->
  create_double_entry_transactions user_id user_id value s = (s', Return response) ->
  exists user leg1 leg2,
    User_objects_get user_id s = (s, Return user)
    /\ User_objects_get user_id s'
       = (s', Return (User.set_balance user (User.balance user - value)))
    /\ transactions s' = transactions s ++ [leg1; leg2]
    /\ Transaction.user leg1 = user_id /\ Transaction.value leg1 = value
    /\ Transaction.user leg2 = user_id /\ Transaction.value leg2 = - value
    /\ calc_balance user_id s' = calc_balance user_id s
    /\ status response = HTTP_201_CREATED.
Proof.
  intros (_ & Hlt & _) Hrun.
  assert (status response = HTTP_201_CREATED) as Hstatus.
  { destruct (create_double_entry_return _ _ _ _ _ _ Hrun)
      as (? & ? & _ & _ & _ & _ & _ & Heq).
    rewrite Heq in Hrun. cbv zeta in Hrun. now injection Hrun as _ <-. }
  apply create_double_entry_shape in Hrun; trivial.
  destruct Hrun as (a & d & _ & _ & _ & Hdid & Hsrc & Hdst & ->).
  rewrite Hsrc in Hdst. injection Hdst as <-.
  exists a. eexists. eexists. unfold User_objects_get. rewrite Hsrc.
  cbn [users transactions]. repeat split; try reflexivity; trivial.
  - rewrite <- Z.add_opp_r.
    rewrite find_update_user_rows_pk; [reflexivity | exact Hdid |].
    rewrite existsb_update_user_rows. now apply find_user_exists in Hsrc.
  - rewrite (calc_balance_app user_id s _
               [Transaction.mk (next_transaction_id s) user_id value
                               (Some (next_transaction_id s + 1));
                Transaction.mk (next_transaction_id s + 1) user_id (- value)
                               (Some (next_transaction_id s))])
      by reflexivity.
    cbn [filter Transaction.user]. rewrite Z.eqb_refl.
    unfold sum_values. cbn. lia.
Qed.

(** ** The user table under the operations *)

Lemma same_id_same_row (rows : list User.t) (x y : User.t) :
  NoDup (map User.id rows) -> In x rows -> In y rows ->
  User.id x = User.id y -> x = y.
Proof.
  induction rows as [|r rows IH]; cbn [map]; intros Hnd Hx Hy Hid; [destruct Hx|].
  inversion Hnd as [|? ? Hnotin Hrest]; subst.
  destruct Hx as [<-|Hx], Hy as [<-|Hy]; trivial.
  - exfalso. apply Hnotin. rewrite Hid. now apply in_map.
  - exfalso. apply Hnotin. rewrite <- Hid. now apply in_map.
  - now apply IH.
Qed.

Lemma map_id_update_user_rows (u : User.t) (rows : list User.t) :
  map User.id (update_user_rows u rows) = map User.id rows.
Proof.
  unfold update_user_rows. rewrite map_map. apply map_ext.
  intros r. destruct (Z.eqb_spec (User.id r) (User.id u)); congruence.
Qed.

(** Saving an instance that differs from its row in the balance only
    leaves every profile of the table as it was. *)
Lemma profile_update_user_rows (u0 u : User.t) (rows : list User.t) :
  NoDup (map User.id rows) ->
  In u0 rows -> User.id u0 = User.id u -> profile u0 = profile u ->
  map profile (update_user_rows u rows) = map profile rows.
Proof.
  intros Hnd Hin Hid Hprofile. unfold update_user_rows. rewrite map_map.
  apply map_ext_in. intros r Hr.
  destruct (Z.eqb_spec (User.id r) (User.id u)) as [E|E]; [|reflexivity].
  rewrite <- Hprofile. f_equal.
  apply (same_id_same_row rows); trivial. congruence.
Qed.

Lemma in_update_user_rows_other (u x : User.t) (rows : list User.t) :
  In x rows -> User.id x <> User.id u -> In x (update_user_rows u rows).
Proof.
  intros Hx Hne. unfold update_user_rows. apply in_map_iff. exists x.
  split; [|exact Hx].
  now destruct (Z.eqb_spec (User.id x) (User.id u)).
Qed.

Lemma in_update_user_rows_self (u0 u : User.t) (rows : list User.t) :
  In u0 rows -> User.id u0 = User.id u -> In u (update_user_rows u rows).
Proof.
  intros Hin Hid. unfold update_user_rows. apply in_map_iff. exists u0.
  split; [|exact Hin]. now rewrite Hid, Z.eqb_refl.
Qed.

Lemma profile_set_balance (u : User.t) (b : Z) :
  profile (User.set_balance u b) = profile u.
Proof.
  reflexivity.
Qed.

Lemma profiles_single_entry (s s' : Store) (user_id value : Z) (r : Response) :
  NoDup (map User.id (users s)) ->
  create_single_entry_transaction user_id value s = (s', Return r) ->
  map profile (users s') = map profile (users s).
Proof.
  intros Hnd Hrun. apply create_single_entry_shape in Hrun.
  destruct Hrun as (u & Hu & _ & ->). cbn [users].
  now apply (profile_update_user_rows u).
Qed.

Lemma profiles_double_entry (s s' : Store) (src dst value : Z) (r : Response) :
  well_formed s ->
  NoDup (map User.id (users s)) ->
  create_double_entry_transactions src dst value s = (s', Return r) ->
  map profile (users s') = map profile (users s).
Proof.
  intros (_ & Hlt & _) Hnd Hrun.
  apply create_double_entry_shape in Hrun; trivial.
  destruct Hrun as (a & d & Ha & Haid & Hd & Hdid & _ & _ & ->). cbn [users].
  set (a' := User.set_balance a (User.balance a + value)).
  rewrite <- (profile_update_user_rows a a' (users s)); trivial.
  destruct (Z.eq_dec (User.id d) (User.id a)) as [E|E].
  - assert (d = a) as -> by now apply (same_id_same_row (users s)).
    apply (profile_update_user_rows a'); trivial.
    + now rewrite map_id_update_user_rows.
    + now apply (in_update_user_rows_self a).
  - apply (profile_update_user_rows d); trivial.
    + now rewrite map_id_update_user_rows.
    + now apply in_update_user_rows_other.
Qed.

(** X3: a transaction creation that returns touches nothing of the user
    table but balances: on a well-formed store whose user keys are unique,
    after a single entry or a double entry the table has the same rows in
    the same order with the same key, name, mail address and active flag,
    so no user is added, removed, renamed or disabled by a creation. *)
Theorem creation_changes_balances_only (s s' : Store) (user_id dst value : Z)
    (r : Response) :
  well_formed s ->
  NoDup (map User.id (users s)) ->
  create_single_entry_transaction user_id value s = (s', Return r)
  \/ create_double_entry_transactions user_id dst value s = (s', Return r) ->
  map profile (users s') = map profile (users s)
  /\ List.length (users s') = List.length (users s)
  /\ next_user_id s' = next_user_id s.
Proof.
  intros Hwf Hnd Hrun.
  assert (map profile (users s') = map profile (users s)) as Hprofiles.
  { destruct Hrun as [Hrun|Hrun].
    - now apply (profiles_single_entry s s' user_id value r).
    - now apply (profiles_double_entry s s' user_id dst value r). }
  split; [exact Hprofiles|]. split.
  - now rewrite <- (length_map profile (users s')), Hprofiles, length_map.
  - destruct Hwf as (_ & Hlt & _). destruct Hrun as [Hrun|Hrun].
    + apply create_single_entry_shape in Hrun.
      now destruct Hrun as (u & _ & _ & ->).
    + apply create_double_entry_shape in Hrun; trivial.
      now destruct Hrun as (a & d & _ & _ & _ & _ & _ & _ & ->).
Qed.

Lemma map_name_profile (rows : list User.t) :
  map User.name rows = map User.name (map profile rows).
Proof.
  rewrite map_map. now apply map_ext.
Qed.

Lemma map_user_id_profile (rows : list User.t) :
  map User.id rows = map User.id (map profile rows).
Proof.
  rewrite map_map. now apply map_ext.
Qed.

Lemma existsb_name_false (name : string) (rows : list User.t) :
  existsb (fun r => String.eqb (User.name r) name) rows = false ->
  ~ In name (map User.name rows).
Proof.
  intros H Hin. apply in_map_iff in Hin. destruct Hin as [u [Hname Hu]].
  assert (existsb (fun r => String.eqb (User.name r) name) rows = true) as E.
  { apply existsb_exists. exists u. split; [exact Hu|]. now apply String.eqb_eq. }
  congruence.
Qed.

Lemma unique_users_perform (s s' : Store) (op : Operation) (r : Response) :
  well_formed s ->
  unique_users s ->
  perform op s = (s', Return r) ->
  unique_users s'.
Proof.
  intros Hwf [Hids Hnames] Hrun. unfold unique_users.
  destruct op as [name mail|uid v|src dst v].
  - cbn [perform] in Hrun. unfold UserViewSet_create in Hrun.
    cbn [data_name data_mail_address] in Hrun.
    unfold try_except, bind, User_create, ret in Hrun.
    destruct (existsb _ (users s)) eqn:Hexists.
    + injection Hrun as <- _. now split.
    + injection Hrun as <- _. cbn [users]. rewrite !map_app. cbn [map User.id User.name].
      destruct Hwf as (_ & _ & _ & Hpk). split.
      * apply NoDup_app; trivial.
        -- constructor; [intros []|constructor].
        -- intros k Hk [<-|[]]. apply in_map_iff in Hk.
           destruct Hk as [u [Hk Hu]]. apply Hpk in Hu. lia.
      * apply NoDup_app; trivial.
        -- constructor; [intros []|constructor].
        -- intros k Hk [<-|[]]. now apply (existsb_name_false name (users s)).
  - cbn [perform] in Hrun.
    pose proof (profiles_single_entry s s' uid v r Hids Hrun) as Hp.
    rewrite (map_user_id_profile (users s')), (map_name_profile (users s')), Hp.
    now rewrite <- map_user_id_profile, <- map_name_profile.
  - cbn [perform] in Hrun.
    pose proof (profiles_double_entry s s' src dst v r Hwf Hids Hrun) as Hp.
    rewrite (map_user_id_profile (users s')), (map_name_profile (users s')), Hp.
    now rewrite <- map_user_id_profile, <- map_name_profile.
Qed.

(** X4: the unique constraints of the user table survive every history:
    from a well-formed store in which no two users share a key or a name,
    any sequence of registrations, single entries and double entries that
    all returned ends in a store in which no two users share a key or a
    name. *)
Theorem unique_users_replay (ops : list Operation) (s s' : Store) :
  well_formed s ->
  unique_users s ->
  replay ops s = Some s' ->
  unique_users s'.
Proof.
  revert s. induction ops as [|op ops IH]; intros s Hwf Huniq; cbn [replay].
  - intros H. now injection H as <-.
  - destruct (perform op s) as [s1 [r|e]] eqn:Hop; [|discriminate].
    apply IH.
    + now apply (well_formed_perform s s1 op r).
    + now apply (unique_users_perform s s1 op r).
Qed.

(** ** Conservation *)

Lemma update_user_rows_fresh (u : User.t) (rows : list User.t) :
  ~ In (User.id u) (map User.id rows) -> update_user_rows u rows = rows.
Proof.
  intros H. unfold update_user_rows. rewrite <- (map_id rows) at 2.
  apply map_ext_in. intros r Hr.
  destruct (Z.eqb_spec (User.id r) (User.id u)) as [E|E]; [|reflexivity].
  exfalso. apply H. rewrite <- E. now apply in_map.
Qed.

Lemma sum_update_user_rows (u0 u : User.t) (rows : list User.t) :
  NoDup (map User.id rows) ->
  In u0 rows -> User.id u0 = User.id u ->
  fold_right Z.add 0 (map User.balance (update_user_rows u rows))
  = fold_right Z.add 0 (map User.balance rows) - User.balance u0 + User.balance u.
Proof.
  induction rows as [|r rows IH]; intros Hnd Hin Hid; [destruct Hin|].
  cbn [map] in Hnd. inversion Hnd as [|? ? Hnotin Hrest]; subst.
  destruct Hin as [->|Hin].
  - cbn [update_user_rows map]. rewrite Hid, Z.eqb_refl.
    fold (update_user_rows u rows).
    rewrite update_user_rows_fresh by now rewrite <- Hid.
    cbn [map fold_right]. lia.
  - assert (User.id r <> User.id u) as Hne.
    { intros E. apply Hnotin. rewrite E, <- Hid. now apply in_map. }
    cbn [update_user_rows map].
    assert ((User.id r =? User.id u) = false) as -> by now apply Z.eqb_neq.
    fold (update_user_rows u rows). cbn [map fold_right].
    rewrite IH by trivial. lia.
Qed.

(** X5: the sums of the ledger. On a well-formed store whose user keys are
    unique, a single entry that returns adds its value to the sum of all
    balances and to the sum of all transaction values; a double entry that
    returns leaves the sum of all transaction values as it was, and leaves
    the sum of all balances as it was when its two accounts differ. *)
Theorem creation_sums (s s' : Store) (user_id dst value : Z) (r : Response) :
  well_formed s ->
  NoDup (map User.id (users s)) ->
  (create_single_entry_transaction user_id value s = (s', Return r) ->
   total_balance s' = total_balance s + value
   /\ total_value s' = total_value s + value)
  /\ (create_double_entry_transactions user_id dst value s = (s', Return r) ->
      total_value s' = total_value s
      /\ (user_id <> dst -> total_balance s' = total_balance s)).
Proof.
  intros (_ & Hlt & _) Hnd. unfold total_balance, total_value. split; intros Hrun.
  - apply create_single_entry_shape in Hrun.
    destruct Hrun as (u & Hu & _ & ->). cbn [users transactions]. split.
    + rewrite (sum_update_user_rows u) by trivial. cbn [User.set_balance User.balance].
      lia.
    + rewrite sum_values_app. unfold sum_values at 2. cbn. lia.
  - apply create_double_entry_shape in Hrun; trivial.
    destruct Hrun as (a & d & Ha & Haid & Hd & Hdid & _ & _ & ->).
    cbn [users transactions]. split.
    + rewrite sum_values_app. unfold sum_values at 2. cbn. lia.
    + intros Hne.
      rewrite (sum_update_user_rows d).
      * rewrite (sum_update_user_rows a) by trivial.
        cbn [User.set_balance User.balance]. lia.
      * now rewrite map_id_update_user_rows.
      * apply in_update_user_rows_other; trivial.
        cbn [User.set_balance User.id]. congruence.
      * reflexivity.
Qed.

(** ** The ledger only grows *)

Lemma perform_appends (s s' : Store) (op : Operation) (r : Response) :
  well_formed s ->
  perform op s = (s', Return r) ->
  exists added,
    transactions s' = transactions s ++ added
    /\ next_transaction_id s' = next_transaction_id s + Z.of_nat (List.length added)
    /\ (forall x, In x added -> next_transaction_id s <= Transaction.id x).
Proof.
  intros (_ & Hlt & _) Hrun. destruct op as [name mail|uid v|src dst v].
  - apply register_shape in Hrun. exists [].
    destruct Hrun as [->| ->]; cbn [transactions next_transaction_id List.length];
      rewrite app_nil_r; repeat split; try lia; intros x [].
  - cbn [perform] in Hrun. apply create_single_entry_shape in Hrun.
    destruct Hrun as (u & _ & _ & ->). eexists.
    cbn [transactions next_transaction_id]. split; [reflexivity|]. split.
    + cbn. lia.
    + intros x [<-|[]]. cbn. lia.
  - cbn [perform] in Hrun. apply create_double_entry_shape in Hrun; trivial.
    destruct Hrun as (a & d & _ & _ & _ & _ & _ & _ & ->). eexists.
    cbn [transactions next_transaction_id]. split; [reflexivity|]. split.
    + cbn. lia.
    + intros x [<-|[<-|[]]]; cbn; lia.
Qed.

(** X6: the ledger is append-only. From a well-formed store, after any
    sequence of registrations, single entries and double entries that all
    returned, the transaction table is the old table followed by new rows:
    no stored row was changed, moved or removed, every new row has a key at
    or above the old next key, and the next key has advanced by the number
    of new rows. *)
Theorem ledger_append_only (ops : list Operation) (s s' : Store) :
  well_formed s ->
  replay ops s = Some s' ->
  exists added,
    transactions s' = transactions s ++ added
    /\ next_transaction_id s' = next_transaction_id s + Z.of_nat (List.length added)
    /\ (forall x, In x added -> next_transaction_id s <= Transaction.id x).
Proof.
  revert s. induction ops as [|op ops IH]; intros s Hwf; cbn [replay].
  - intros H. injection H as <-. exists []. rewrite app_nil_r. cbn.
    repeat split; try lia; try (intros x []).
  - destruct (perform op s) as [s1 [r|e]] eqn:Hop; [|discriminate].
    intros Hrun.
    destruct (perform_appends s s1 op r Hwf Hop) as (added1 & Ht1 & Hn1 & Hk1).
    destruct (IH s1 (well_formed_perform s s1 op r Hwf Hop) Hrun)
      as (added2 & Ht2 & Hn2 & Hk2).
    exists (added1 ++ added2). rewrite Ht2, Ht1, Hn2, Hn1, app_assoc, length_app.
    repeat split; try lia.
    intros x Hx. apply in_app_iff in Hx. destruct Hx as [Hx|Hx].
    + now apply Hk1.
    + apply Hk2 in Hx. lia.
Qed.

(** ** Retrieving what was created or listed *)

Lemma same_key_same_transaction (rows : list Transaction.t) (x y : Transaction.t) :
  NoDup (map Transaction.id rows) -> In x rows -> In y rows ->
  Transaction.id x = Transaction.id y -> x = y.
Proof.
  induction rows as [|r rows IH]; cbn [map]; intros Hnd Hx Hy Hid; [destruct Hx|].
  inversion Hnd as [|? ? Hnotin Hrest]; subst.
  destruct Hx as [<-|Hx], Hy as [<-|Hy]; trivial.
  - exfalso. apply Hnotin. rewrite Hid. now apply in_map.
  - exfalso. apply Hnotin. rewrite <- Hid. now apply in_map.
  - now apply IH.
Qed.

Lemma find_unique_row (g : Transaction.t -> bool) (rows : list Transaction.t)
    (x : Transaction.t) :
  NoDup (map Transaction.id rows) -> In x rows -> g x = true ->
  find (fun y => g y && (Transaction.id y =? Transaction.id x)) rows = Some x.
Proof.
  intros Hnd Hx Hg.
  destruct (find _ rows) as [y|] eqn:Hfind.
  - apply find_some in Hfind. destruct Hfind as [Hy Hcond].
    apply andb_true_iff in Hcond. destruct Hcond as [_ Hid]. apply Z.eqb_eq in Hid.
    f_equal. now apply (same_key_same_transaction rows).
  - apply (find_none _ _ Hfind) in Hx. now rewrite Hg, Z.eqb_refl in Hx.
Qed.

Lemma TransactionViewSet_retrieve_found (s : Store) (request : Request)
    (x : Transaction.t) :
  NoDup (map Transaction.id (transactions s)) ->
  In x (transactions s) ->
  TransactionViewSet_retrieve request (Transaction.id x) s
  = (s, Return (mkResponse (transaction_data x) HTTP_200_OK)).
Proof.
  intros Hnd Hx.
  unfold TransactionViewSet_retrieve, bind, Transaction_objects_filter_id.
  pose proof (filter_unique_id (fun _ => true) (Transaction.id x) _ Hnd) as Hfilter.
  pose proof (find_unique_row (fun _ => true) _ x Hnd Hx eq_refl) as Hfind.
  cbn [andb] in Hfilter, Hfind. rewrite Hfind in Hfilter. now rewrite Hfilter.
Qed.

Lemma UserTransactionViewSet_retrieve_found (s : Store) (request : Request)
    (user_pk : Z) (x : Transaction.t) :
  NoDup (map Transaction.id (transactions s)) ->
  user_exists user_pk s = true ->
  In x (transactions s) ->
  Transaction.user x = user_pk ->
  UserTransactionViewSet_retrieve request (Transaction.id x) user_pk s
  = (s, Return (mkResponse (transaction_data x) HTTP_200_OK)).
Proof.
  intros Hnd Huser Hx Hown.
  apply user_exists_find in Huser. destruct Huser as [u Hu].
  unfold UserTransactionViewSet_retrieve, bind, User_objects_get,
    Transaction_objects_filter_user_id.
  rewrite Hu. destruct (find_user_some _ _ _ Hu) as [_ ->].
  rewrite (filter_unique_id (fun y => Transaction.user y =? user_pk)
             (Transaction.id x) _ Hnd).
  rewrite (find_unique_row (fun y => Transaction.user y =? user_pk) _ x Hnd Hx)
    by now apply Z.eqb_eq.
  reflexivity.
Qed.

(** X7: on a store whose transaction keys are unique,
    [TransactionViewSet.retrieve] answers 200 with the stored row of the
    key when there is one and 404 when there is none; its assertion never
    fails and the store stays as it was. *)
Theorem TransactionViewSet_retrieve_eq (s : Store) (request : Request) (pk : Z) :
  NoDup (map Transaction.id (transactions s)) ->
  TransactionViewSet_retrieve request pk s =
  match find (fun x => Transaction.id x =? pk) (transactions s) with
  | Some x => (s, Return (mkResponse (transaction_data x) HTTP_200_OK))
  | None => (s, Return (mkResponse (msg transaction_not_found) HTTP_404_NOT_FOUND))
  end.
Proof.
  intros Hnd.
  destruct (find _ (transactions s)) as [x|] eqn:Hfind.
  - apply find_some in Hfind. destruct Hfind as [Hx Hid]. apply Z.eqb_eq in Hid.
    rewrite <- Hid. now apply TransactionViewSet_retrieve_found.
  - unfold TransactionViewSet_retrieve, bind, Transaction_objects_filter_id.
    rewrite filter_none; [reflexivity|].
    intros x Hx. exact (find_none _ _ Hfind x Hx).
Qed.

Lemma create_single_entry_return (s s' : Store) (user_id value : Z)
    (response : Response) :
  create_single_entry_transaction user_id value s = (s', Return response) ->
  exists u,
    find (fun r => User.id r =? user_id) (users s) = Some u
    /\ response
       = mkResponse
           (transaction_data (Transaction.mk (next_transaction_id s) user_id value None))
           HTTP_201_CREATED
    /\ s' = mkStore
              (update_user_rows (User.set_balance u (User.balance u + value)) (users s))
              (transactions s
               ++ [Transaction.mk (next_transaction_id s) user_id value None])
              (next_user_id s) (next_transaction_id s + 1).
Proof.
  rewrite create_single_entry_eq, single_entry_block_eq.
  destruct (find (fun u => User.id u =? user_id) (users s)) as [u|]; [|discriminate].
  destruct (value =? 0); [discriminate|].
  destruct (out_of_range value); [discriminate|].
  cbv zeta. intros H. injection H as <- <-. now exists u.
Qed.

(** A 201 of [create] is the return of one of the two creations. *)
Lemma create_201_inv (s s' : Store) (request : Request) (user_pk : Z)
    (response : Response) :
  UserTransactionViewSet_create request user_pk s = (s', Return response) ->
  status response = HTTP_201_CREATED ->
  exists value,
    data_value request = Some value
    /\ match data_dst request with
       | None =>
           create_single_entry_transaction user_pk value s = (s', Return response)
       | Some dst =>
           create_double_entry_transactions user_pk dst value s
           = (s', Return response)
       end.
Proof.
  unfold UserTransactionViewSet_create.
  destruct (data_value request) as [value|].
  2:{ intros H. injection H as _ <-. discriminate. }
  intros Hrun Hstatus. exists value. split; [reflexivity|].
  assert (forall body : M Response,
             try_except body create_except s = (s', Return response) ->
             body s = (s', Return response)) as Htry.
  { intros body. unfold try_except.
    destruct (body s) as [s1 [resp|e]]; [trivial|].
    unfold create_except. destruct (isinstance_UserNotFound e).
    - intros H. injection H as _ <-. discriminate.
    - destruct e; intros H; try discriminate;
        injection H as _ <-; discriminate. }
  destruct (data_dst request) as [dst|]; now apply Htry.
Qed.

(** X8: what [POST /users/{id}/transactions] answers with 201 can be read
    back. On a well-formed store, the transaction of the response is then
    answered with 200 both by the per-user retrieve under the user of the
    path and by the global retrieve; without [dst] it has no
    [double_entry_id]; with [dst] its [double_entry_id] is the key of a
    second transaction that the per-user retrieve answers under the
    destination user, of the negated value and pointing back. *)
Theorem created_transaction_is_retrievable (s s' : Store) (request any : Request)
    (user_pk : Z) (response : Response) :
  well_formed s ->
  UserTransactionViewSet_create request user_pk s = (s', Return response) ->
  status response = HTTP_201_CREATED ->
  exists x,
    data response = transaction_data x
    /\ UserTransactionViewSet_retrieve any (Transaction.id x) user_pk s'
       = (s', Return (mkResponse (transaction_data x) HTTP_200_OK))
    /\ TransactionViewSet_retrieve any (Transaction.id x) s'
       = (s', Return (mkResponse (transaction_data x) HTTP_200_OK))
    /\ match data_dst request with
       | None => Transaction.double_entry_id x = None
       | Some dst =>
           exists y,
             Transaction.double_entry_id x = Some (Transaction.id y)
             /\ UserTransactionViewSet_retrieve any (Transaction.id y) dst s'
                = (s', Return (mkResponse (transaction_data y) HTTP_200_OK))
             /\ Transaction.value y = - Transaction.value x
             /\ Transaction.double_entry_id y = Some (Transaction.id x)
       end.
Proof.
  intros Hwf Hrun Hstatus.
  destruct (create_201_inv _ _ _ _ _ Hrun Hstatus) as (value & _ & Hop).
  destruct (data_dst request) as [dst|].
  - assert (well_formed s') as (Hnd' & _)
        by exact (well_formed_perform s s' (double_entry user_pk dst value)
                    response Hwf Hop).
    destruct Hwf as (_ & Hlt & _).
    destruct (create_double_entry_return _ _ _ _ _ _ Hop)
      as (a & d & Ha & Hd & _ & _ & _ & Heq).
    rewrite Heq in Hop. cbv zeta in Hop.
    rewrite (linked_rows s user_pk dst value Hlt) in Hop.
    injection Hop as Hs' Hresp.
    assert (user_exists user_pk s' = true /\ user_exists dst s' = true) as [Hu1 Hu2].
    { rewrite <- Hs'. unfold user_exists. cbn [users].
      rewrite !existsb_update_user_rows.
      split; [now apply find_user_exists in Ha | now apply find_user_exists in Hd]. }
    assert (transactions s'
            = transactions s
              ++ [Transaction.mk (next_transaction_id s) user_pk value
                                 (Some (next_transaction_id s + 1));
                  Transaction.mk (next_transaction_id s + 1) dst (- value)
                                 (Some (next_transaction_id s))]) as Hrows
        by now rewrite <- Hs'.
    eexists. split; [now rewrite <- Hresp|]. split; [|split].
    + apply UserTransactionViewSet_retrieve_found; trivial.
      rewrite Hrows. apply in_app_iff. right. now left.
    + apply TransactionViewSet_retrieve_found; trivial.
      rewrite Hrows. apply in_app_iff. right. now left.
    + exists (Transaction.mk (next_transaction_id s + 1) dst (- value)
                             (Some (next_transaction_id s))).
      split; [reflexivity|]. split; [|split].
      * apply (UserTransactionViewSet_retrieve_found s' any dst
                 (Transaction.mk (next_transaction_id s + 1) dst (- value)
                                 (Some (next_transaction_id s)))); trivial.
        rewrite Hrows. apply in_app_iff. right. right. now left.
      * reflexivity.
      * reflexivity.
  - assert (well_formed s') as (Hnd' & _)
        by exact (well_formed_perform s s' (single_entry user_pk value)
                    response Hwf Hop).
    destruct (create_single_entry_return _ _ _ _ _ Hop) as (u & Hu & -> & Hs').
    assert (user_exists user_pk s' = true) as Hu1.
    { rewrite Hs'. unfold user_exists. cbn [users].
      rewrite existsb_update_user_rows. now apply find_user_exists in Hu. }
    assert (In (Transaction.mk (next_transaction_id s) user_pk value None)
               (transactions s')) as Hin.
    { rewrite Hs'. cbn [transactions]. apply in_app_iff. right. now left. }
    eexists. split; [reflexivity|]. split; [|split].
    + now apply UserTransactionViewSet_retrieve_found.
    + now apply TransactionViewSet_retrieve_found.
    + reflexivity.
Qed.

Lemma find_user_unique (rows : list User.t) (u : User.t) :
  NoDup (map User.id rows) -> In u rows ->
  find (fun r => User.id r =? User.id u) rows = Some u.
Proof.
  intros Hnd Hu. destruct (find _ rows) as [y|] eqn:Hfind.
  - destruct (find_user_some _ _ _ Hfind) as [Hy Hid].
    f_equal. now apply (same_id_same_row rows).
  - apply (find_none _ _ Hfind) in Hu. now rewrite Z.eqb_refl in Hu.
Qed.

(** X9: whatever a list view shows can be retrieved. On a store whose
    transaction keys are unique, every entry of the global transaction list
    is answered with 200 and the same record by the global retrieve, and
    for a user that exists every entry of the per-user list belongs to that
    user and is answered with 200 and the same record by the per-user
    retrieve under that user. *)
Theorem listed_transactions_are_retrievable (s : Store) (request any : Request)
    (user_pk : Z) :
  NoDup (map Transaction.id (transactions s)) ->
  user_exists user_pk s = true ->
  (exists p,
     TransactionViewSet_list request s
     = (s, Return (mkResponse (transaction_page p) HTTP_200_OK))
     /\ Forall (fun e =>
                  TransactionViewSet_retrieve any (Transaction.id e) s
                  = (s, Return (mkResponse (transaction_data e) HTTP_200_OK)))
               (entries p))
  /\ (exists p,
        UserTransactionViewSet_list request user_pk s
        = (s, Return (mkResponse (transaction_page p) HTTP_200_OK))
        /\ Forall (fun e =>
                     Transaction.user e = user_pk
                     /\ UserTransactionViewSet_retrieve any (Transaction.id e) user_pk s
                        = (s, Return (mkResponse (transaction_data e) HTTP_200_OK)))
                  (entries p)).
Proof.
  intros Hnd Huser. split.
  - eexists. split.
    { unfold TransactionViewSet_list, bind, Transaction_objects_all, ret.
      reflexivity. }
    destruct (paginate_queryset_paginated transaction_to_dict (transactions s) request)
      as (_ & _ & _ & Hentries & _).
    rewrite Hentries. apply Forall_forall. intros e He.
    apply in_map_iff in He. destruct He as [x [<- Hx]]. apply in_slice in Hx.
    now apply TransactionViewSet_retrieve_found.
  - pose proof Huser as Hfind. apply user_exists_find in Hfind.
    destruct Hfind as [u Hu].
    unfold UserTransactionViewSet_list, try_except, bind, User_objects_get.
    rewrite Hu. destruct (find_user_some _ _ _ Hu) as [_ Hid].
    eexists. split; [reflexivity|].
    destruct (paginate_queryset_paginated transaction_to_dict
                (filter (fun x => Transaction.user x =? User.id u) (transactions s))
                request) as (_ & _ & _ & Hentries & _).
    rewrite Hentries. apply Forall_forall. intros e He.
    apply in_map_iff in He. destruct He as [x [<- Hx]]. apply in_slice in Hx.
    apply filter_In in Hx. destruct Hx as [Hx Hown]. apply Z.eqb_eq in Hown.
    unfold transaction_to_dict. split; [congruence|].
    apply UserTransactionViewSet_retrieve_found; trivial. congruence.
Qed.

(** X10: every entry of the user list can be retrieved. On a store whose
    user keys are unique, each entry of [UserViewSet.list] is the summary
    of an active user whom [UserViewSet.retrieve] answers under the key of
    the entry with 200 and the full record, so the key, the name and the
    balance of the entry are those of the full record. *)
Theorem listed_users_are_retrievable (s : Store) (request any : Request) :
  NoDup (map User.id (users s)) ->
  exists p,
    UserViewSet_list request s
    = (s, Return (mkResponse (user_page p) HTTP_200_OK))
    /\ Forall (fun e => exists u,
                   User.active u = true
                   /\ e = to_dict u
                   /\ UserViewSet_retrieve any (dict_id e) s
                      = (s, Return (mkResponse (user_data (to_full_dict u))
                                               HTTP_200_OK)))
              (entries p).
Proof.
  intros Hnd. eexists. split; [apply UserViewSet_list_eq|].
  destruct (paginate_queryset_paginated to_dict (filter User.active (users s)) request)
    as (_ & _ & _ & Hentries & _).
  rewrite Hentries. apply Forall_forall. intros e He.
  apply in_map_iff in He. destruct He as [u [<- Hu]]. apply in_slice in Hu.
  apply filter_In in Hu. destruct Hu as [Hu Hactive].
  exists u. split; [exact Hactive|]. split; [reflexivity|].
  unfold UserViewSet_retrieve, try_except, bind, User_objects_get.
  cbn [to_dict dict_id]. now rewrite (find_user_unique _ u Hnd Hu).
Qed.

(** ** Pages side by side *)

Lemma firstn_plus {A} (n m : nat) (rows : list A) :
  firstn (n + m) rows = firstn n rows ++ firstn m (skipn n rows).
Proof.
  revert rows. induction n as [|n IH]; intros rows; [reflexivity|].
  destruct rows as [|r rows]; cbn [Nat.add firstn skipn app].
  - now rewrite firstn_nil.
  - now rewrite IH.
Qed.

Lemma slice_tiling {A} (rows : list A) (offset limit limit' : Z) :
  0 <= offset -> 0 <= limit -> 0 <= limit' ->
  slice rows offset limit ++ slice rows (offset + limit) limit'
  = slice rows offset (limit + limit').
Proof.
  intros Ho Hl Hl'. unfold slice.
  rewrite !Z2Nat.inj_add by lia.
  rewrite firstn_plus, skipn_skipn. do 3 f_equal. lia.
Qed.

Lemma slice_past_the_end {A} (rows : list A) (offset limit : Z) :
  Z.of_nat (List.length rows) <= offset -> slice rows offset limit = [].
Proof.
  intros H. unfold slice. rewrite skipn_all2 by lia. apply firstn_nil.
Qed.

Lemma entries_of_page_request {A B} (f : A -> B) (rows : list A) (limit offset : Z) :
  0 <= offset -> 1 <= limit <= 250 ->
  entries (map_page f (paginate_queryset 250 100 rows (page_request limit offset)))
  = map f (slice rows offset limit).
Proof.
  intros Ho Hl.
  destruct (paginate_queryset_paginated f rows (page_request limit offset))
    as (_ & Hlimit & Hoffset & Hentries & _).
  rewrite Hentries, Hlimit, Hoffset. unfold limit_of, offset_of, page_request.
  cbn [query_limit query_offset].
  destruct (Z.leb_spec 1 limit); [|lia].
  destruct (Z.leb_spec 0 offset); [|lia].
  now rewrite Z.min_l by lia.
Qed.

Lemma listed_transactions_global (s : Store) (limit offset : Z) :
  0 <= offset -> 1 <= limit <= 250 ->
  listed_transactions (TransactionViewSet_list (page_request limit offset) s)
  = slice (transactions s) offset limit.
Proof.
  intros Ho Hl.
  unfold listed_transactions, TransactionViewSet_list, bind,
    Transaction_objects_all, ret.
  cbn [snd data].
  rewrite (entries_of_page_request transaction_to_dict) by trivial.
  unfold transaction_to_dict. apply map_id.
Qed.

Lemma listed_transactions_of_user (s : Store) (user_pk limit offset : Z) :
  0 <= offset -> 1 <= limit <= 250 ->
  listed_transactions
    (UserTransactionViewSet_list (page_request limit offset) user_pk s)
  = if user_exists user_pk s
    then slice (filter (fun x => Transaction.user x =? user_pk) (transactions s))
               offset limit
    else [].
Proof.
  intros Ho Hl.
  unfold listed_transactions, UserTransactionViewSet_list, try_except, bind,
    User_objects_get, user_exists.
  destruct (find (fun u => User.id u =? user_pk) (users s)) as [u|] eqn:Hfind.
  - rewrite (find_user_exists _ _ _ Hfind).
    destruct (find_user_some _ _ _ Hfind) as [_ Hid].
    unfold Transaction_objects_filter_user, ret. cbn [snd data].
    rewrite (entries_of_page_request transaction_to_dict) by trivial.
    unfold transaction_to_dict. rewrite map_id. now rewrite Hid.
  - now rewrite (find_user_none _ _ Hfind).
Qed.

Lemma listed_users_active (s : Store) (limit offset : Z) :
  0 <= offset -> 1 <= limit <= 250 ->
  listed_users (UserViewSet_list (page_request limit offset) s)
  = map to_dict (slice (filter User.active (users s)) offset limit).
Proof.
  intros Ho Hl. rewrite UserViewSet_list_eq. unfold listed_users. cbn [snd data].
  now apply entries_of_page_request.
Qed.

(** X11: consecutive pages tile. For an offset that is not negative and
    two limits of at least 1 that together stay within 250, the entries of
    the page at the offset followed by the entries of the page that starts
    where it ends are the entries of the one page of both limits together,
    for the global transaction list, for the transaction list of any user
    and for the user list; and a page whose offset is at or past the number
    of all transactions has no entries. *)
Theorem consecutive_pages_tile (s : Store) (user_pk offset limit limit' : Z) :
  0 <= offset -> 1 <= limit -> 1 <= limit' -> limit + limit' <= 250 ->
  listed_transactions (TransactionViewSet_list (page_request limit offset) s)
  ++ listed_transactions
       (TransactionViewSet_list (page_request limit' (offset + limit)) s)
  = listed_transactions
      (TransactionViewSet_list (page_request (limit + limit') offset) s)
  /\ listed_transactions
       (UserTransactionViewSet_list (page_request limit offset) user_pk s)
     ++ listed_transactions
          (UserTransactionViewSet_list (page_request limit' (offset + limit)) user_pk s)
     = listed_transactions
         (UserTransactionViewSet_list (page_request (limit + limit') offset) user_pk s)
  /\ listed_users (UserViewSet_list (page_request limit offset) s)
     ++ listed_users (UserViewSet_list (page_request limit' (offset + limit)) s)
     = listed_users (UserViewSet_list (page_request (limit + limit') offset) s)
  /\ (Z.of_nat (List.length (transactions s)) <= offset ->
      listed_transactions (TransactionViewSet_list (page_request limit offset) s)
      = []).
Proof.
  intros Ho Hl Hl' Hsum. split; [|split; [|split]].
  - rewrite !listed_transactions_global by lia. apply slice_tiling; lia.
  - rewrite !listed_transactions_of_user by lia.
    destruct (user_exists user_pk s); [apply slice_tiling; lia | reflexivity].
  - rewrite !listed_users_active by lia. rewrite <- map_app. f_equal.
    apply slice_tiling; lia.
  - intros Hpast. rewrite listed_transactions_global by lia.
    now apply slice_past_the_end.
Qed.

(** ** Registering a user *)

Lemma find_new_user (rows : list User.t) (u : User.t) :
  (forall r, In r rows -> User.id r < User.id u) ->
  find (fun r => User.id r =? User.id u) (rows ++ [u]) = Some u.
Proof.
  intros Hlt. induction rows as [|r rows IH]; cbn [app find].
  - now rewrite Z.eqb_refl.
  - assert ((User.id r =? User.id u) = false) as ->.
    { apply Z.eqb_neq. specialize (Hlt r (or_introl eq_refl)). lia. }
    apply IH. intros x Hx. apply Hlt. now right.
Qed.

Lemma find_old_user (rows : list User.t) (u : User.t) (pk : Z) :
  existsb (fun r => User.id r =? pk) rows = true ->
  find (fun r => User.id r =? pk) (rows ++ [u])
  = find (fun r => User.id r =? pk) rows.
Proof.
  induction rows as [|r rows IH]; cbn [app find existsb]; [discriminate|].
  destruct (User.id r =? pk); [reflexivity|]. exact IH.
Qed.

(** X12: what [POST /users] answers with 201 is there afterwards. On a
    well-formed store, the response carries the full record of a user with
    the name and the mail address of the request; [UserViewSet.retrieve]
    then answers the key of that record with 200 and the same record; every
    user that existed before is still looked up unchanged and the
    transaction table is untouched; and the same request sent again is
    answered 409 and changes nothing. *)
Theorem registered_user_is_retrievable (s s' : Store) (request any : Request)
    (response : Response) :
  well_formed s ->
  UserViewSet_create request s = (s', Return response) ->
  status response = HTTP_201_CREATED ->
  exists u,
    data response = user_data (to_full_dict u)
    /\ data_name request = Some (User.name u)
    /\ User.mail_address u = data_mail_address request
    /\ UserViewSet_retrieve any (User.id u) s'
       = (s', Return (mkResponse (user_data (to_full_dict u)) HTTP_200_OK))
    /\ (forall pk, user_exists pk s = true ->
        User_objects_get pk s' = (s', snd (User_objects_get pk s)))
    /\ transactions s' = transactions s
    /\ UserViewSet_create request s'
       = (s', Return (mkResponse (msg (user_already_exists (User.name u)))
                                 HTTP_409_CONFLICT)).
Proof.
  intros (_ & _ & _ & Hpk). unfold UserViewSet_create.
  destruct (data_name request) as [name|].
  2:{ intros H. injection H as _ <-. discriminate. }
  unfold try_except, bind, User_create, ret.
  destruct (existsb (fun r => String.eqb (User.name r) name) (users s)) eqn:Hexists.
  { intros H. injection H as _ <-. discriminate. }
  intros H _. injection H as <- <-.
  exists (User.mk (next_user_id s) name (data_mail_address request) 0 true).
  cbn [data User.name User.mail_address User.id users transactions].
  assert (find (fun r => User.id r =? next_user_id s)
               (users s
                ++ [User.mk (next_user_id s) name (data_mail_address request) 0 true])
          = Some (User.mk (next_user_id s) name (data_mail_address request) 0 true))
    as Hnew by (apply (find_new_user (users s)
                         (User.mk (next_user_id s) name
                                  (data_mail_address request) 0 true)), Hpk).
  repeat split.
  - unfold UserViewSet_retrieve, try_except, bind, User_objects_get, ret.
    cbn [users]. now rewrite Hnew.
  - intros pk Hexisted. unfold User_objects_get, user_exists in *. cbn [users].
    rewrite find_old_user by trivial.
    now destruct (find (fun u => User.id u =? pk) (users s)).
  - rewrite existsb_app. cbn [existsb User.name].
    now rewrite String.eqb_refl, orb_true_r.
Qed.

(** ** The debug views *)

(** X13: what the debug views can do. With DEBUG off both views answer 501
    without a body and the store stays as it was, whatever the command.
    With DEBUG on, [retrieve] runs 'clear', which empties both tables, or
    'check_balance', which reports and changes nothing, and for any other
    key the lookup in [commands] raises KeyError and the store stays as it
    was. No debug request but 'clear' with DEBUG on ever changes the
    store. *)
Theorem debug_commands (s s' : Store) (request : Request) (pk : string)
    (outcome : DebugOutcome) :
  DebugViewSet_retrieve request pk s = (s', outcome) ->
  DebugViewSet_list request s
  = (s, answered (if DEBUG
                  then mkDebugResponse (Some "Debug active"%string) HTTP_200_OK
                  else mkDebugResponse None HTTP_501_NOT_IMPLEMENTED))
  /\ ((DEBUG = false /\ s' = s
       /\ outcome = answered (mkDebugResponse None HTTP_501_NOT_IMPLEMENTED))
      \/ (DEBUG = true /\ pk = "clear"%string
          /\ users s' = [] /\ transactions s' = []
          /\ outcome
             = answered (mkDebugResponse (Some "All cleared"%string) HTTP_200_OK))
      \/ (DEBUG = true /\ pk = "check_balance"%string /\ s' = s
          /\ outcome
             = answered (mkDebugResponse
                           (Some (if balances_match s
                                  then "Everything matches"%string
                                  else "Differences detected"%string))
                           HTTP_200_OK))
      \/ (DEBUG = true /\ pk <> "clear"%string /\ pk <> "check_balance"%string
          /\ s' = s /\ outcome = KeyError pk)).
Proof.
  unfold DebugViewSet_retrieve, DebugViewSet_list, commands.
  destruct DEBUG.
  2:{ intros H. injection H as <- <-. split; [reflexivity|]. left. now repeat split. }
  intros H. split; [reflexivity|]. right.
  destruct (String.eqb_spec pk "clear") as [Hclear|Hclear].
  { unfold DebugViewSet_clear in H. injection H as <- <-. left. now repeat split. }
  destruct (String.eqb_spec pk "check_balance") as [Hcheck|Hcheck].
  { unfold DebugViewSet_check_balance in H. injection H as <- <-.
    right. left. now repeat split. }
  injection H as <- <-. right. right. now repeat split.
Qed.

Lemma create_without_users (s : Store) (request : Request) (user_pk : Z) :
  users s = [] ->
  fst (UserTransactionViewSet_create request user_pk s) = s
  /\ status_of (snd (UserTransactionViewSet_create request user_pk s)) <> Return 201.
Proof.
  intros Hempty. unfold UserTransactionViewSet_create.
  destruct (data_value request) as [value|]; [|split; [reflexivity|discriminate]].
  destruct (data_dst request) as [dst|]; unfold try_except.
  - rewrite create_double_entry_eq, double_entry_block_eq, Hempty. cbn [find].
    unfold create_except. cbn [isinstance_UserNotFound].
    destruct UserNotFound_covers_DoesNotExist; split;
      try reflexivity; discriminate.
  - rewrite create_single_entry_eq, single_entry_block_eq, Hempty. cbn [find].
    unfold create_except. cbn [isinstance_UserNotFound].
    destruct UserNotFound_covers_DoesNotExist; split;
      try reflexivity; discriminate.
Qed.

(** X14: after 'clear'. With DEBUG on, once [DebugViewSet.retrieve] has run
    'clear' the store is well-formed, 'check_balance' reports that
    everything matches, the user list and the transaction list answer 200
    with no entries and an overall count of 0, every user and every
    transaction retrieved by key is answered 404, and no request to create
    a transaction is answered 201 or changes the store. *)
Theorem after_clear (s s' : Store) (request any : Request) (outcome : DebugOutcome) :
  DEBUG = true ->
  DebugViewSet_retrieve request "clear" s = (s', outcome) ->
  well_formed s'
  /\ DebugViewSet_retrieve any "check_balance" s'
     = (s', answered (mkDebugResponse (Some "Everything matches"%string) HTTP_200_OK))
  /\ UserViewSet_list any s'
     = (s', Return (mkResponse
                      (user_page (mkPage [] (limit_of any) (offset_of any) 0))
                      HTTP_200_OK))
  /\ TransactionViewSet_list any s'
     = (s', Return (mkResponse
                      (transaction_page (mkPage [] (limit_of any) (offset_of any) 0))
                      HTTP_200_OK))
  /\ (forall pk,
        UserViewSet_retrieve any pk s'
        = (s', Return (mkResponse (msg (user_not_found pk)) HTTP_404_NOT_FOUND)))
  /\ (forall pk,
        TransactionViewSet_retrieve any pk s'
        = (s', Return (mkResponse (msg transaction_not_found) HTTP_404_NOT_FOUND)))
  /\ (forall post user_pk,
        fst (UserTransactionViewSet_create post user_pk s') = s'
        /\ status_of (snd (UserTransactionViewSet_create post user_pk s'))
           <> Return 201).
Proof.
  intros Hdebug. unfold DebugViewSet_retrieve at 1. rewrite Hdebug.
  cbn [commands String.eqb Ascii.eqb Bool.eqb]. unfold DebugViewSet_clear.
  intros H. injection H as <- _.
  split; [|split; [|split; [|split; [|split; [|split]]]]].
  - unfold well_formed. cbn [users transactions map]. repeat split.
    + constructor.
    + intros x [].
    + intros x [].
    + intros u [].
  - unfold DebugViewSet_retrieve. rewrite Hdebug. reflexivity.
  - rewrite UserViewSet_list_eq. cbn [users filter].
    unfold paginate_queryset, map_page. cbn.
    now rewrite get_limit_eq, get_offset_eq.
  - unfold TransactionViewSet_list, bind, Transaction_objects_all, ret.
    cbn [transactions]. unfold paginate_queryset, map_page. cbn.
    now rewrite get_limit_eq, get_offset_eq.
  - intros pk. reflexivity.
  - intros pk. reflexivity.
  - intros post user_pk. now apply create_without_users.
Qed.

(** X15: [DebugViewSet.check_balance] notices a double entry within one
    account. On a well-formed store whose balances match, after any double
    entry that returned and whose source and destination are the same user,
    [check_balance] reports 'Differences detected' and leaves the store as
    it is. *)
Theorem check_balance_after_self_transfer (s s' : Store) (user_id value : Z)
    (response : Response) :
  well_formed s ->
  reconciled s ->
  create_double_entry_transactions user_id user_id value s = (s', Return response) ->
  DebugViewSet_check_balance s'
  = (s', Return "Differences detected"%string).
Proof.
  intros (_ & Hlt & _) Hrec Hrun. unfold DebugViewSet_check_balance.
  destruct (balances_match s') eqn:Hmatch; [exfalso|reflexivity].
  destruct (create_double_entry_return _ _ _ _ _ _ Hrun)
    as (_ & _ & _ & _ & Hnz & _).
  apply create_double_entry_shape in Hrun; trivial.
  destruct Hrun as (a & d & Ha & Haid & Hd & Hdid & Hfa & Hfd & Hs').
  rewrite Hfa in Hfd. injection Hfd as <-.
  rewrite reconciled_forall in Hrec. pose proof (Hrec a Ha) as Hbalance.
  fold (reconciled s') in Hmatch. rewrite reconciled_forall in Hmatch.
  specialize (Hmatch (User.set_balance a (User.balance a + - value))).
  rewrite (calc_balance_app _ s s'
             [Transaction.mk (next_transaction_id s) user_id value
                             (Some (next_transaction_id s + 1));
              Transaction.mk (next_transaction_id s + 1) user_id (- value)
                             (Some (next_transaction_id s))])
    in Hmatch by now rewrite Hs'.
  cbn [User.set_balance User.id User.balance filter Transaction.user] in Hmatch.
  rewrite Haid, Z.eqb_refl in Hmatch. unfold sum_values in Hmatch at 1.
  cbn [map fold_right Transaction.value] in Hmatch.
  rewrite Haid in Hbalance.
  assert (In (User.set_balance a (User.balance a + - value)) (users s')) as Hin.
  { rewrite Hs'. cbn [users].
    apply (in_update_user_rows_self
             (User.set_balance a (User.balance a + value))); [|reflexivity].
    now apply (in_update_user_rows_self a). }
  apply Hmatch in Hin. lia.
Qed.

(** X16: the per-user retrieve keeps to its user. On a store whose
    transaction keys are unique, a stored transaction asked for under a
    user that exists but does not own it is answered 404, although the
    global retrieve answers the same key with 200 and the record. *)
Theorem retrieve_under_another_user (s : Store) (request : Request) (user_pk : Z)
    (x : Transaction.t) :
  NoDup (map Transaction.id (transactions s)) ->
  In x (transactions s) ->
  user_exists user_pk s = true ->
  Transaction.user x <> user_pk ->
  UserTransactionViewSet_retrieve request (Transaction.id x) user_pk s
  = (s, Return (mkResponse (msg transaction_not_found) HTTP_404_NOT_FOUND))
  /\ TransactionViewSet_retrieve request (Transaction.id x) s
     = (s, Return (mkResponse (transaction_data x) HTTP_200_OK)).
Proof.
  intros Hnd Hx Huser Hother. split; [|now apply TransactionViewSet_retrieve_found].
  apply user_exists_find in Huser. destruct Huser as [u Hu].
  unfold UserTransactionViewSet_retrieve, bind, User_objects_get,
    Transaction_objects_filter_user_id.
  rewrite Hu. destruct (find_user_some _ _ _ Hu) as [_ ->].
  rewrite filter_none; [reflexivity|].
  intros y Hy. apply andb_false_iff.
  destruct (Z.eqb_spec (Transaction.id y) (Transaction.id x)) as [E|E];
    [left | now right].
  assert (y = x) as -> by now apply (same_key_same_transaction (transactions s)).
  now apply Z.eqb_neq.
Qed.

End Views.

(** ** The views at work on the example stores

    The boundaries are set to -1000 and 1000 throughout. *)

Lemma well_formed_three_users : well_formed three_users.
Proof.
  unfold well_formed, three_users, alice, bob, carol. cbn. repeat split.
  - constructor.
  - intros x [].
  - intros x [].
  - intros u [<-|[<-|[<-|[]]]]; cbn; lia.
Qed.

Lemma double_entry_failure_leaves_store_witness :
  user_exists 9 three_users = false
  /\ exists e,
       double_entry_block (-1000) 1000 1 9 30 three_users = (three_users, Raise e)
       /\ create_double_entry_transactions (-1000) 1000 1 9 30 three_users
          = (three_users, Raise e).
Proof.
  split; [reflexivity|].
  apply (double_entry_failure_leaves_store (-1000) 1000 three_users 1 9 30).
  right. left. reflexivity.
Defined.

(** C2: the code at a double entry from a user to that same user. The
    balances of [three_users] are reconciled, the operation returns 201, and
    afterwards user 1 has the stored balance -30 while the values of the
    transactions of user 1 sum to 0, so that [DebugViewSet.check_balance]
    itself reports a difference. *)
Theorem self_transfer_breaks_reconciliation :
  DebugViewSet_check_balance three_users
  = (three_users, Return "Everything matches"%string)
  /\ create_double_entry_transactions (-1000) 1000 1 1 30 three_users
     = (after_self_transfer,
        Return (mkResponse (transaction_data (Transaction.mk 1 1 30 (Some 2)))
                           HTTP_201_CREATED))
  /\ User_objects_get 1 after_self_transfer
     = (after_self_transfer, Return (User.mk 1 "alice" None (-30) true))
  /\ calc_balance 1 after_self_transfer = 0
  /\ DebugViewSet_check_balance after_self_transfer
     = (after_self_transfer, Return "Differences detected"%string).
Proof.
  repeat split.
Qed.

(** A double entry from user 1 to user 1: both legs, each the partner of the
    other, belong to user 1, so the invariant of section 8 fails on the
    user clause. *)
Lemma double_entry_pairing_counterexample :
  replay (-1000) 1000 [double_entry 1 1 30] three_users = Some after_self_transfer
  /\ well_formed three_users
  /\ double_entry_invariant three_users
  /\ ~ double_entry_invariant after_self_transfer.
Proof.
  split; [reflexivity|]. split; [exact well_formed_three_users|]. split.
  - intros T d [].
  - intros H.
    destruct (H (Transaction.mk 1 1 30 (Some 2)) 2) as (D & HD & Hid & _ & _ & Huser).
    + now left.
    + reflexivity.
    + destruct HD as [<-|[<-|[]]]; [discriminate Hid|]. now apply Huser.
Qed.

(** The scenario of section 8 from the empty database: both balances, the
    three rows, and the pairing of the two legs. *)
Lemma double_entry_pairing_witness :
  well_formed empty_store
  /\ replay (-1000) 1000 scenario empty_store = Some after_scenario
  /\ well_formed after_scenario
  /\ double_entry_links after_scenario
  /\ double_entry_invariant after_scenario.
Proof.
  split; [exact well_formed_empty|]. split; [reflexivity|].
  destruct (double_entry_pairing (-1000) 1000 scenario empty_store after_scenario
              well_formed_empty eq_refl) as (Hwf & Hlinks & Hinv & _).
  split; [exact Hwf|]. split.
  - apply Hlinks. intros T d [].
  - apply Hinv.
    + repeat constructor. discriminate.
    + intros T d [].
Defined.

Lemma double_entry_effect_witness :
  well_formed three_users
  /\ 1 <> 2
  /\ create_double_entry_transactions (-1000) 1000 1 2 30 three_users
     = (after_transfer,
        Return (mkResponse (transaction_data (Transaction.mk 1 1 30 (Some 2)))
                           HTTP_201_CREATED))
  /\ exists src_account dst_account leg1 leg2,
       User_objects_get 1 three_users = (three_users, Return src_account)
       /\ User_objects_get 2 three_users = (three_users, Return dst_account)
       /\ User_objects_get 1 after_transfer
          = (after_transfer,
             Return (User.set_balance src_account (User.balance src_account + 30)))
       /\ User_objects_get 2 after_transfer
          = (after_transfer,
             Return (User.set_balance dst_account (User.balance dst_account - 30)))
       /\ transactions after_transfer = transactions three_users ++ [leg1; leg2]
       /\ Transaction.user leg1 = 1 /\ Transaction.value leg1 = 30
       /\ Transaction.user leg2 = 2 /\ Transaction.value leg2 = - 30
       /\ Transaction.double_entry_id leg2 = Some (Transaction.id leg1)
       /\ Transaction.double_entry_id leg1 = Some (Transaction.id leg2)
       /\ mkResponse (transaction_data (Transaction.mk 1 1 30 (Some 2))) HTTP_201_CREATED
          = mkResponse (transaction_data leg1) HTTP_201_CREATED
       /\ Transaction_objects_filter_id (Transaction.id leg1) after_transfer
          = (after_transfer, Return [leg1]).
Proof.
  split; [exact well_formed_three_users|]. split; [discriminate|].
  split; [reflexivity|].
  apply (double_entry_effect (-1000) 1000 three_users after_transfer 1 2 30).
  - exact well_formed_three_users.
  - discriminate.
  - reflexivity.
Defined.

Lemma self_transfer_effect_witness :
  well_formed three_users
  /\ create_double_entry_transactions (-1000) 1000 1 1 30 three_users
     = (after_self_transfer,
        Return (mkResponse (transaction_data (Transaction.mk 1 1 30 (Some 2)))
                           HTTP_201_CREATED))
  /\ exists user leg1 leg2,
       User_objects_get 1 three_users = (three_users, Return user)
       /\ User_objects_get 1 after_self_transfer
          = (after_self_transfer,
             Return (User.set_balance user (User.balance user - 30)))
       /\ transactions after_self_transfer
          = transactions three_users ++ [leg1; leg2]
       /\ Transaction.user leg1 = 1 /\ Transaction.value leg1 = 30
       /\ Transaction.user leg2 = 1 /\ Transaction.value leg2 = - 30
       /\ calc_balance 1 after_self_transfer = calc_balance 1 three_users
       /\ status (mkResponse (transaction_data (Transaction.mk 1 1 30 (Some 2)))
                             HTTP_201_CREATED)
          = HTTP_201_CREATED.
Proof.
  split; [exact well_formed_three_users|]. split; [reflexivity|].
  apply (self_transfer_effect (-1000) 1000 three_users after_self_transfer 1 30).
  - exact well_formed_three_users.
  - reflexivity.
Defined.

(** A single entry of 100 for bob on the database that takes no balance
    above 50: the row is inserted, the balance update is refused, the block
    alone ends with the row and the old balance, and the operation ends in
    the store it started from. *)
Lemma single_entry_effect_witness :
  User_objects_get 2 three_users = (three_users, Return bob)
  /\ 100 <> 0
  /\ out_of_range (-1000) 1000 100 = false
  /\ single_entry_block_on (-1000) 1000 balances_up_to_50 2 100 three_users
     = (mkStore [alice; bob; carol] [Transaction.mk 1 2 100 None] 4 2,
        Raise IntegrityError)
  /\ create_single_entry_transaction_on (-1000) 1000 balances_up_to_50 2 100
       three_users
     = (three_users, Raise IntegrityError)
  /\ create_single_entry_transaction_on (-1000) 1000 no_failures 2 100 three_users
     = create_single_entry_transaction (-1000) 1000 2 100 three_users.
Proof.
  split; [reflexivity|]. split; [discriminate|]. split; [reflexivity|].
  destruct (single_entry_effect (-1000) 1000 balances_up_to_50 three_users 2 100 bob
              eq_refl) as (_ & Hrefused & _ & Hplain).
  - discriminate.
  - reflexivity.
  - destruct (Hrefused IntegrityError eq_refl eq_refl) as [Hblock Hoperation].
    split; [exact Hblock|]. split; [exact Hoperation | exact Hplain].
Defined.

(** The same single entry with a value the database takes: both writes
    persist. *)
Example single_entry_within_the_check :
  create_single_entry_transaction_on (-1000) 1000 balances_up_to_50 2 30 three_users
  = (mkStore [alice; User.mk 2 "bob" (Some "bob@example.org"%string) 30 true; carol]
             [Transaction.mk 1 2 30 None] 4 2,
     Return (mkResponse (transaction_data (Transaction.mk 1 2 30 None))
                        HTTP_201_CREATED)).
Proof.
  reflexivity.
Qed.

(** A value of 0 posted for a user that does not exist: in the listed order
    the value comes first and the status is 400; the code looks the user up
    first and answers 404, or raises, never 400. *)
Lemma create_status_counterexample :
  status_as_listed (-1000) 1000 (post_transaction 0 None) 9 three_users = 400
  /\ UserTransactionViewSet_create (-1000) 1000 true (post_transaction 0 None) 9
       three_users
     = (three_users,
        Return (mkResponse (msg (exception_text User_DoesNotExist))
                           HTTP_404_NOT_FOUND))
  /\ UserTransactionViewSet_create (-1000) 1000 false (post_transaction 0 None) 9
       three_users
     = (three_users, Raise User_DoesNotExist).
Proof.
  repeat split.
Qed.

(** C8: the code at a request for a transaction of a user that does not
    exist. [UserTransactionViewSet.retrieve] looks the user up outside any
    [try], so the [User.DoesNotExist] of the lookup leaves the view and no
    404 is answered, while [UserTransactionViewSet.list], for the same
    missing user, catches it and answers 404. *)
Theorem retrieve_for_missing_user_raises :
  user_exists 9 three_users = false
  /\ UserTransactionViewSet_retrieve plain_request 1 9 three_users
     = (three_users, Raise User_DoesNotExist)
  /\ UserTransactionViewSet_list plain_request 9 three_users
     = (three_users,
        Return (mkResponse (msg (user_not_found 9)) HTTP_404_NOT_FOUND)).
Proof.
  repeat split.
Qed.

Lemma retrieve_ignores_active_witness :
  User.active carol = false
  /\ User_objects_get 3 three_users = (three_users, Return carol)
  /\ UserViewSet_retrieve plain_request 3 three_users
     = (three_users, Return (mkResponse (user_data (to_full_dict carol)) HTTP_200_OK))
  /\ exists p,
       UserViewSet_list plain_request three_users
       = (three_users, Return (mkResponse (user_page p) HTTP_200_OK))
       /\ entries p
          = map to_dict
              (slice (filter User.active (users three_users)) (offset p) (limit p))
       /\ Forall (fun e => exists u,
                      In u (users three_users)
                      /\ User.active u = true /\ e = to_dict u)
                 (entries p).
Proof.
  split; [reflexivity|]. split; [reflexivity|].
  apply (retrieve_ignores_active three_users plain_request 3 carol).
  reflexivity.
Defined.

(** The user list of [three_users]: the two active users, not the third. *)
Example user_list_of_three_users :
  UserViewSet_list plain_request three_users
  = (three_users,
     Return (mkResponse
               (user_page (mkPage [to_dict alice; to_dict bob] 100 0 2))
               HTTP_200_OK)).
Proof.
  reflexivity.
Qed.

(** A limit above the maximum is cut to 250, a limit of 0 falls back to 100. *)
Example limits_of_requests :
  get_limit 250 100 (mkRequest None None None None (integer 1000) absent) = 250
  /\ get_limit 250 100 (mkRequest None None None None (integer 0) absent) = 100
  /\ get_limit 250 100 (mkRequest None None None None not_an_integer absent) = 100
  /\ get_limit 250 100 (mkRequest None None None None (integer 7) (integer 3)) = 7.
Proof.
  repeat split.
Qed.

(** With boundaries that are not symmetric, a value within them whose
    negation is outside them is accepted as a single entry and refused with
    403 as a double entry. *)
Example negated_leg_out_of_range :
  status_of (snd (UserTransactionViewSet_create (-20) 150 true
                    (post_transaction 100 None) 1 three_users))
  = Return 201
  /\ UserTransactionViewSet_create (-20) 150 true
       (post_transaction 100 (Some 2)) 1 three_users
     = (three_users,
        Return (mkResponse (msg (exception_text TransactionValueError))
                           HTTP_403_FORBIDDEN)).
Proof.
  repeat split.
Qed.

Lemma well_formed_after_transfer : well_formed after_transfer.
Proof.
  unfold well_formed, after_transfer, carol. cbn. repeat split.
  - repeat constructor; cbn; intuition discriminate.
  - intros x [<-|[<-|[]]]; cbn; lia.
  - intros x [<-|[<-|[]]]; cbn; lia.
  - intros u [<-|[<-|[<-|[]]]]; cbn; lia.
Qed.

Lemma reconciled_replay_witness :
  well_formed empty_store
  /\ Forall distinct_accounts scenario
  /\ reconciled empty_store
  /\ replay (-1000) 1000 scenario empty_store = Some after_scenario
  /\ reconciled after_scenario.
Proof.
  assert (Forall distinct_accounts scenario) as Hd
    by (repeat constructor; discriminate).
  split; [exact well_formed_empty|]. split; [exact Hd|].
  split; [reflexivity|]. split; [reflexivity|].
  exact (reconciled_replay (-1000) 1000 scenario empty_store after_scenario
           well_formed_empty Hd eq_refl eq_refl).
Defined.

Lemma UserTransactionViewSet_retrieve_witness :
  well_formed after_transfer
  /\ UserTransactionViewSet_retrieve plain_request 1 1 after_transfer
     = (after_transfer,
        Return (mkResponse (transaction_data (Transaction.mk 1 1 30 (Some 2)))
                           HTTP_200_OK))
  /\ UserTransactionViewSet_retrieve plain_request 2 1 after_transfer
     = (after_transfer,
        Return (mkResponse (msg transaction_not_found) HTTP_404_NOT_FOUND)).
Proof.
  split; [exact well_formed_after_transfer|]. split.
  - exact (UserTransactionViewSet_retrieve_eq after_transfer plain_request 1 1
             well_formed_after_transfer).
  - exact (UserTransactionViewSet_retrieve_eq after_transfer plain_request 2 1
             well_formed_after_transfer).
Defined.

(** ** Further runs on the example stores *)

Lemma unique_ids_three_users : NoDup (map User.id (users three_users)).
Proof.
  cbn. repeat (constructor; [cbn; intuition discriminate|]). constructor.
Qed.

Lemma unique_ids_after_transfer :
  NoDup (map Transaction.id (transactions after_transfer)).
Proof.
  exact (proj1 well_formed_after_transfer).
Qed.

Lemma creation_changes_balances_only_witness :
  well_formed three_users
  /\ NoDup (map User.id (users three_users))
  /\ create_double_entry_transactions (-1000) 1000 1 2 30 three_users
     = (after_transfer,
        Return (mkResponse (transaction_data (Transaction.mk 1 1 30 (Some 2)))
                           HTTP_201_CREATED))
  /\ map profile (users after_transfer) = map profile (users three_users)
  /\ List.length (users after_transfer) = List.length (users three_users)
  /\ next_user_id after_transfer = next_user_id three_users.
Proof.
  split; [exact well_formed_three_users|].
  split; [exact unique_ids_three_users|]. split; [reflexivity|].
  apply (creation_changes_balances_only (-1000) 1000 three_users after_transfer
           1 2 30
           (mkResponse (transaction_data (Transaction.mk 1 1 30 (Some 2)))
                       HTTP_201_CREATED)).
  - exact well_formed_three_users.
  - exact unique_ids_three_users.
  - right. reflexivity.
Defined.

Lemma unique_users_replay_witness :
  well_formed empty_store
  /\ unique_users empty_store
  /\ replay (-1000) 1000 scenario empty_store = Some after_scenario
  /\ unique_users after_scenario.
Proof.
  assert (unique_users empty_store) as Hempty by (split; constructor).
  split; [exact well_formed_empty|]. split; [exact Hempty|].
  split; [reflexivity|].
  exact (unique_users_replay (-1000) 1000 scenario empty_store after_scenario
           well_formed_empty Hempty eq_refl).
Defined.

Lemma creation_sums_witness :
  well_formed three_users
  /\ NoDup (map User.id (users three_users))
  /\ create_double_entry_transactions (-1000) 1000 1 2 30 three_users
     = (after_transfer,
        Return (mkResponse (transaction_data (Transaction.mk 1 1 30 (Some 2)))
                           HTTP_201_CREATED))
  /\ total_value after_transfer = total_value three_users
  /\ total_balance after_transfer = total_balance three_users.
Proof.
  split; [exact well_formed_three_users|].
  split; [exact unique_ids_three_users|]. split; [reflexivity|].
  destruct (creation_sums (-1000) 1000 three_users after_transfer 1 2 30
              (mkResponse (transaction_data (Transaction.mk 1 1 30 (Some 2)))
                          HTTP_201_CREATED)
              well_formed_three_users unique_ids_three_users) as [_ Hdouble].
  destruct (Hdouble eq_refl) as [Hvalue Hbalance].
  split; [exact Hvalue|]. apply Hbalance. discriminate.
Defined.

Lemma ledger_append_only_witness :
  well_formed empty_store
  /\ replay (-1000) 1000 scenario empty_store = Some after_scenario
  /\ exists added,
       transactions after_scenario = transactions empty_store ++ added
       /\ next_transaction_id after_scenario
          = next_transaction_id empty_store + Z.of_nat (List.length added)
       /\ (forall x, In x added ->
           next_transaction_id empty_store <= Transaction.id x).
Proof.
  split; [exact well_formed_empty|]. split; [reflexivity|].
  exact (ledger_append_only (-1000) 1000 scenario empty_store after_scenario
           well_formed_empty eq_refl).
Defined.

Lemma TransactionViewSet_retrieve_witness :
  NoDup (map Transaction.id (transactions after_transfer))
  /\ TransactionViewSet_retrieve plain_request 2 after_transfer
     = (after_transfer,
        Return (mkResponse (transaction_data (Transaction.mk 2 2 (-30) (Some 1)))
                           HTTP_200_OK))
  /\ TransactionViewSet_retrieve plain_request 7 after_transfer
     = (after_transfer,
        Return (mkResponse (msg transaction_not_found) HTTP_404_NOT_FOUND)).
Proof.
  split; [exact unique_ids_after_transfer|]. split.
  - exact (TransactionViewSet_retrieve_eq after_transfer plain_request 2
             unique_ids_after_transfer).
  - exact (TransactionViewSet_retrieve_eq after_transfer plain_request 7
             unique_ids_after_transfer).
Defined.

Lemma created_transaction_is_retrievable_witness :
  well_formed three_users
  /\ UserTransactionViewSet_create (-1000) 1000 true (post_transaction 30 (Some 2)) 1
       three_users
     = (after_transfer,
        Return (mkResponse (transaction_data (Transaction.mk 1 1 30 (Some 2)))
                           HTTP_201_CREATED))
  /\ exists x,
       transaction_data (Transaction.mk 1 1 30 (Some 2)) = transaction_data x
       /\ UserTransactionViewSet_retrieve plain_request (Transaction.id x) 1
            after_transfer
          = (after_transfer, Return (mkResponse (transaction_data x) HTTP_200_OK))
       /\ TransactionViewSet_retrieve plain_request (Transaction.id x) after_transfer
          = (after_transfer, Return (mkResponse (transaction_data x) HTTP_200_OK))
       /\ exists y,
            Transaction.double_entry_id x = Some (Transaction.id y)
            /\ UserTransactionViewSet_retrieve plain_request (Transaction.id y) 2
                 after_transfer
               = (after_transfer,
                  Return (mkResponse (transaction_data y) HTTP_200_OK))
            /\ Transaction.value y = - Transaction.value x
            /\ Transaction.double_entry_id y = Some (Transaction.id x).
Proof.
  split; [exact well_formed_three_users|]. split; [reflexivity|].
  exact (created_transaction_is_retrievable (-1000) 1000 true three_users
           after_transfer (post_transaction 30 (Some 2)) plain_request 1
           (mkResponse (transaction_data (Transaction.mk 1 1 30 (Some 2)))
                       HTTP_201_CREATED)
           well_formed_three_users eq_refl eq_refl).
Defined.

Lemma listed_transactions_are_retrievable_witness :
  NoDup (map Transaction.id (transactions after_transfer))
  /\ user_exists 1 after_transfer = true
  /\ (exists p,
        TransactionViewSet_list plain_request after_transfer
        = (after_transfer, Return (mkResponse (transaction_page p) HTTP_200_OK))
        /\ Forall (fun e =>
                     TransactionViewSet_retrieve plain_request (Transaction.id e)
                       after_transfer
                     = (after_transfer,
                        Return (mkResponse (transaction_data e) HTTP_200_OK)))
                  (entries p))
  /\ (exists p,
        UserTransactionViewSet_list plain_request 1 after_transfer
        = (after_transfer, Return (mkResponse (transaction_page p) HTTP_200_OK))
        /\ Forall (fun e =>
                     Transaction.user e = 1
                     /\ UserTransactionViewSet_retrieve plain_request
                          (Transaction.id e) 1 after_transfer
                        = (after_transfer,
                           Return (mkResponse (transaction_data e) HTTP_200_OK)))
                  (entries p)).
Proof.
  split; [exact unique_ids_after_transfer|]. split; [reflexivity|].
  exact (listed_transactions_are_retrievable after_transfer plain_request
           plain_request 1 unique_ids_after_transfer eq_refl).
Defined.

Lemma listed_users_are_retrievable_witness :
  NoDup (map User.id (users three_users))
  /\ exists p,
       UserViewSet_list plain_request three_users
       = (three_users, Return (mkResponse (user_page p) HTTP_200_OK))
       /\ Forall (fun e => exists u,
                      User.active u = true
                      /\ e = to_dict u
                      /\ UserViewSet_retrieve plain_request (dict_id e) three_users
                         = (three_users,
                            Return (mkResponse (user_data (to_full_dict u))
                                               HTTP_200_OK)))
                 (entries p).
Proof.
  split; [exact unique_ids_three_users|].
  exact (listed_users_are_retrievable three_users plain_request plain_request
           unique_ids_three_users).
Defined.

Lemma consecutive_pages_tile_witness :
  0 <= 0 /\ 1 <= 1 /\ 1 <= 2 /\ 1 + 2 <= 250
  /\ listed_transactions (TransactionViewSet_list (page_request 1 0) after_scenario)
     ++ listed_transactions
          (TransactionViewSet_list (page_request 2 (0 + 1)) after_scenario)
     = listed_transactions
         (TransactionViewSet_list (page_request (1 + 2) 0) after_scenario)
  /\ listed_transactions
       (UserTransactionViewSet_list (page_request 1 0) 1 after_scenario)
     ++ listed_transactions
          (UserTransactionViewSet_list (page_request 2 (0 + 1)) 1 after_scenario)
     = listed_transactions
         (UserTransactionViewSet_list (page_request (1 + 2) 0) 1 after_scenario)
  /\ listed_users (UserViewSet_list (page_request 1 0) after_scenario)
     ++ listed_users (UserViewSet_list (page_request 2 (0 + 1)) after_scenario)
     = listed_users (UserViewSet_list (page_request (1 + 2) 0) after_scenario)
  /\ (Z.of_nat (List.length (transactions after_scenario)) <= 0 ->
      listed_transactions (TransactionViewSet_list (page_request 1 0) after_scenario)
      = []).
Proof.
  split; [lia|]. split; [lia|]. split; [lia|]. split; [lia|].
  apply (consecutive_pages_tile after_scenario 1 0 1 2); lia.
Defined.

Lemma registered_user_is_retrievable_witness :
  well_formed three_users
  /\ UserViewSet_create
       (register_request "dave" (Some "dave@example.org"%string)) three_users
     = (after_registration,
        Return (mkResponse (user_data (to_full_dict dave)) HTTP_201_CREATED))
  /\ exists u,
       user_data (to_full_dict dave) = user_data (to_full_dict u)
       /\ Some "dave"%string = Some (User.name u)
       /\ User.mail_address u = Some "dave@example.org"%string
       /\ UserViewSet_retrieve plain_request (User.id u) after_registration
          = (after_registration,
             Return (mkResponse (user_data (to_full_dict u)) HTTP_200_OK))
       /\ (forall pk, user_exists pk three_users = true ->
           User_objects_get pk after_registration
           = (after_registration, snd (User_objects_get pk three_users)))
       /\ transactions after_registration = transactions three_users
       /\ UserViewSet_create
            (register_request "dave" (Some "dave@example.org"%string))
            after_registration
          = (after_registration,
             Return (mkResponse (msg (user_already_exists (User.name u)))
                                HTTP_409_CONFLICT)).
Proof.
  split; [exact well_formed_three_users|]. split; [reflexivity|].
  exact (registered_user_is_retrievable three_users after_registration
           (register_request "dave" (Some "dave@example.org"%string))
           plain_request
           (mkResponse (user_data (to_full_dict dave)) HTTP_201_CREATED)
           well_formed_three_users eq_refl eq_refl).
Defined.

Lemma debug_commands_witness :
  DebugViewSet_retrieve true plain_request "purge" after_transfer
  = (after_transfer, KeyError "purge")
  /\ DebugViewSet_list true plain_request after_transfer
     = (after_transfer,
        answered (mkDebugResponse (Some "Debug active"%string) HTTP_200_OK))
  /\ ((true = false /\ after_transfer = after_transfer
       /\ KeyError "purge"
          = answered (mkDebugResponse None HTTP_501_NOT_IMPLEMENTED))
      \/ (true = true /\ "purge"%string = "clear"%string
          /\ users after_transfer = [] /\ transactions after_transfer = []
          /\ KeyError "purge"
             = answered (mkDebugResponse (Some "All cleared"%string) HTTP_200_OK))
      \/ (true = true /\ "purge"%string = "check_balance"%string
          /\ after_transfer = after_transfer
          /\ KeyError "purge"
             = answered (mkDebugResponse
                           (Some (if balances_match after_transfer
                                  then "Everything matches"%string
                                  else "Differences detected"%string))
                           HTTP_200_OK))
      \/ (true = true /\ "purge"%string <> "clear"%string
          /\ "purge"%string <> "check_balance"%string
          /\ after_transfer = after_transfer
          /\ KeyError "purge" = KeyError "purge")).
Proof.
  split; [reflexivity|].
  exact (debug_commands true after_transfer after_transfer plain_request "purge"
           (KeyError "purge") eq_refl).
Defined.

(** With DEBUG off, 'clear' clears nothing. *)
Example clear_with_debug_off :
  DebugViewSet_retrieve false plain_request "clear" after_transfer
  = (after_transfer, answered (mkDebugResponse None HTTP_501_NOT_IMPLEMENTED)).
Proof.
  reflexivity.
Qed.

Lemma after_clear_witness :
  true = true
  /\ DebugViewSet_retrieve true plain_request "clear" after_transfer
     = (after_transfer_cleared,
        answered (mkDebugResponse (Some "All cleared"%string) HTTP_200_OK))
  /\ well_formed after_transfer_cleared
  /\ DebugViewSet_retrieve true plain_request "check_balance" after_transfer_cleared
     = (after_transfer_cleared,
        answered (mkDebugResponse (Some "Everything matches"%string) HTTP_200_OK))
  /\ UserViewSet_list plain_request after_transfer_cleared
     = (after_transfer_cleared,
        Return (mkResponse
                  (user_page (mkPage [] (limit_of plain_request)
                                     (offset_of plain_request) 0))
                  HTTP_200_OK))
  /\ TransactionViewSet_list plain_request after_transfer_cleared
     = (after_transfer_cleared,
        Return (mkResponse
                  (transaction_page (mkPage [] (limit_of plain_request)
                                            (offset_of plain_request) 0))
                  HTTP_200_OK))
  /\ (forall pk,
        UserViewSet_retrieve plain_request pk after_transfer_cleared
        = (after_transfer_cleared,
           Return (mkResponse (msg (user_not_found pk)) HTTP_404_NOT_FOUND)))
  /\ (forall pk,
        TransactionViewSet_retrieve plain_request pk after_transfer_cleared
        = (after_transfer_cleared,
           Return (mkResponse (msg transaction_not_found) HTTP_404_NOT_FOUND)))
  /\ (forall post user_pk,
        fst (UserTransactionViewSet_create (-1000) 1000 true post user_pk
               after_transfer_cleared)
        = after_transfer_cleared
        /\ status_of (snd (UserTransactionViewSet_create (-1000) 1000 true post
                             user_pk after_transfer_cleared))
           <> Return 201).
Proof.
  split; [reflexivity|]. split; [reflexivity|].
  exact (after_clear (-1000) 1000 true true after_transfer after_transfer_cleared
           plain_request plain_request
           (answered (mkDebugResponse (Some "All cleared"%string) HTTP_200_OK))
           eq_refl eq_refl).
Defined.

Lemma check_balance_after_self_transfer_witness :
  well_formed three_users
  /\ reconciled three_users
  /\ create_double_entry_transactions (-1000) 1000 1 1 30 three_users
     = (after_self_transfer,
        Return (mkResponse (transaction_data (Transaction.mk 1 1 30 (Some 2)))
                           HTTP_201_CREATED))
  /\ DebugViewSet_check_balance after_self_transfer
     = (after_self_transfer, Return "Differences detected"%string).
Proof.
  split; [exact well_formed_three_users|]. split; [reflexivity|].
  split; [reflexivity|].
  exact (check_balance_after_self_transfer (-1000) 1000 three_users
           after_self_transfer 1 30
           (mkResponse (transaction_data (Transaction.mk 1 1 30 (Some 2)))
                       HTTP_201_CREATED)
           well_formed_three_users eq_refl eq_refl).
Defined.

Lemma retrieve_under_another_user_witness :
  NoDup (map Transaction.id (transactions after_transfer))
  /\ In (Transaction.mk 1 1 30 (Some 2)) (transactions after_transfer)
  /\ user_exists 2 after_transfer = true
  /\ 1 <> 2
  /\ UserTransactionViewSet_retrieve plain_request 1 2 after_transfer
     = (after_transfer,
        Return (mkResponse (msg transaction_not_found) HTTP_404_NOT_FOUND))
  /\ TransactionViewSet_retrieve plain_request 1 after_transfer
     = (after_transfer,
        Return (mkResponse (transaction_data (Transaction.mk 1 1 30 (Some 2)))
                           HTTP_200_OK)).
Proof.
  assert (In (Transaction.mk 1 1 30 (Some 2)) (transactions after_transfer)) as Hin
    by (left; reflexivity).
  split; [exact unique_ids_after_transfer|]. split; [exact Hin|].
  split; [reflexivity|]. split; [discriminate|].
  apply (retrieve_under_another_user after_transfer plain_request 2
           (Transaction.mk 1 1 30 (Some 2)) unique_ids_after_transfer Hin eq_refl).
  discriminate.
Defined.
